(** * The image-order approval workflow of day2/image-agent-with-approval

    A shallow embedding of [agent.py]: the confirmation gate
    [place_image_generation_order], the event scan [check_for_approval],
    the response builder [create_approval_response] and the driver
    [run_image_workflow], together with the properties the design document
    states about them.

    Python dictionaries with string keys are finite maps [gmap string value];
    Python's unbounded [int] is [Z]; strings are UTF-8 byte strings. *)

From stdpp Require Import gmap strings list fin_maps pretty.

Open Scope string_scope.
Open Scope Z_scope.

(** ** Python values stored in the dictionaries of the program *)

Inductive value : Type :=
  | VNone
  | VBool (b : bool)
  | VInt (z : Z)
  | VStr (s : string).

#[global] Instance value_eq_dec : EqDecision value.
Proof. solve_decision. Defined.

Abbreviation dict := (gmap string value).

(** [f"{n}"] for an [int]: decimal digits, with a leading minus sign for a
    negative number. *)
Definition str_of_int (n : Z) : string := pretty n.

(** ** The tool context handed to a tool by the agent framework

    [ToolConfirmation] and [ToolContext] are classes of the agent framework;
    the fields below are the ones [agent.py] reads.  The one method the gate
    calls, [request_confirmation], is represented by its observable effect:
    the request (hint and payload) is recorded for the current function call,
    here as an entry appended to [requested_confirmations]. *)

Record ToolConfirmation : Type := {
  hint : string;
  confirmed : bool;
  payload : option dict;
}.

Record ToolContext : Type := {
  ctx_invocation_id : string;
  function_call_id : string;
  tool_confirmation : option ToolConfirmation;
  requested_confirmations : list ToolConfirmation;
}.

Definition request_confirmation (h : string) (p : dict) (tool_context : ToolContext)
  : ToolContext :=
  {| ctx_invocation_id := ctx_invocation_id tool_context;
     function_call_id := function_call_id tool_context;
     tool_confirmation := tool_confirmation tool_context;
     requested_confirmations :=
       requested_confirmations tool_context
         ++ [ {| hint := h; confirmed := false; payload := Some p |} ] |}.

(** ** The confirmation gate (agent.py, lines 20 and 29-79) *)

Definition LARGE_ORDER_THRESHOLD : Z := 1.

Definition place_image_generation_order (num_images : Z) (tool_context : ToolContext)
  : dict * ToolContext :=
  if decide (num_images ≤ LARGE_ORDER_THRESHOLD) then
    (* SCENARIO 1: small orders auto-approve *)
    ({[ "status" := VStr "approved";
        "order_id" := VStr ("ORD-" +:+ str_of_int num_images +:+ "-AUTO");
        "num_images" := VInt num_images;
        "message" := VStr ("Order auto-approved: " +:+ str_of_int num_images +:+ " images") ]},
     tool_context)
  else
    match tool_confirmation tool_context with
    | None =>
        (* SCENARIO 2: first call of a large order, ask for approval *)
        ({[ "status" := VStr "pending";
            "message" := VStr ("Order for " +:+ str_of_int num_images
                                 +:+ " images requires approval") ]},
         request_confirmation
           ("⚠️ Large order: " +:+ str_of_int num_images
              +:+ " images. Do you want to approve?")
           {[ "num_images" := VInt num_images ]}
           tool_context)
    | Some tc =>
        (* SCENARIO 3: the tool is called again with the decision *)
        if confirmed tc then
          ({[ "status" := VStr "approved";
              "order_id" := VStr ("ORD-" +:+ str_of_int num_images +:+ "-HUMAN");
              "num_images" := VInt num_images;
              "message" := VStr ("Order approved: " +:+ str_of_int num_images +:+ " images") ]},
           tool_context)
        else
          ({[ "status" := VStr "rejected";
              "message" := VStr ("Order rejected: " +:+ str_of_int num_images +:+ " images") ]},
           tool_context)
    end.

(** The hint of the confirmation request (agent.py, line 57). *)
Definition pending_hint (num_images : Z) : string :=
  "⚠️ Large order: " +:+ str_of_int num_images +:+ " images. Do you want to approve?".

(** The confirmation state the gate can observe: no ticket, or a ticket
    with its decision. *)
Definition confirmation_state (tool_context : ToolContext) : option bool :=
  confirmed <$> tool_confirmation tool_context.

(** The orders placed by a sequence of gate results: the order ids they
    carry, in call order. *)
Definition orders_placed (results : list dict) : list value :=
  omap (λ r : dict, r !! "order_id") results.

(** A context as the framework prepares it for a call of the tool: the
    same context with the confirmation slot set. *)
Definition with_confirmation (o : option ToolConfirmation) (tool_context : ToolContext)
  : ToolContext :=
  {| ctx_invocation_id := ctx_invocation_id tool_context;
     function_call_id := function_call_id tool_context;
     tool_confirmation := o;
     requested_confirmations := requested_confirmations tool_context |}.

(** ** Events of the agent framework, as [agent.py] reads them

    Every field that the framework declares optional is an [option]. *)

Record FunctionCall : Type := {
  fc_id : option string;
  fc_name : option string;
  fc_args : option dict;
}.

Record FunctionResponse : Type := {
  fr_id : value;
  fr_name : string;
  fr_response : dict;
}.

Record Part : Type := {
  text : option string;
  function_call : option FunctionCall;
  function_response : option FunctionResponse;
}.

Record Content : Type := {
  role : option string;
  parts : option (list Part);
}.

Record Event : Type := {
  invocation_id : string;
  author : string;
  content : option Content;
}.

(** ** Exceptions and the result of a computation that may raise *)

Inductive exn : Type :=
  | AttributeError (attr : string)
  | TypeError
  | KeyError (key : string)
  | FrameworkError (msg : string).

Definition result (A : Type) : Type := exn + A.

Definition ok {A} (a : A) : result A := inr a.
Definition raise {A} (e : exn) : result A := inl e.

Definition rbind {A B} (m : result A) (k : A → result B) : result B :=
  match m with
  | inl e => inl e
  | inr a => k a
  end.

Declare Scope result_scope.
Delimit Scope result_scope with res.
Notation "'let?' x := m 'in' k" := (rbind m (λ x, k))
  (at level 10, x name, m at level 100, k at level 200,
   format "'[v' 'let?'  x  :=  m  'in' '/' k ']'") : result_scope.
Open Scope result_scope.

(** [o.attr]: reading an attribute of [None] raises. *)
Definition getattr {A B} (attr : string) (f : A → B) (o : option A) : result B :=
  match o with
  | Some a => ok (f a)
  | None => raise (AttributeError attr)
  end.

(** [for x in o]: iterating over [None] raises. *)
Definition iterate {A} (o : option (list A)) : result (list A) :=
  match o with
  | Some l => ok l
  | None => raise TypeError
  end.

(** [d[key]] *)
Definition getitem (d : dict) (key : string) : result value :=
  match d !! key with
  | Some v => ok v
  | None => raise (KeyError key)
  end.

(** Truth value of an optional object, an optional list, an optional string
    and an optional dictionary. *)
Definition truthy_obj {A} (o : option A) : bool :=
  match o with Some _ => true | None => false end.

Definition truthy_list {A} (o : option (list A)) : bool :=
  match o with Some (_ :: _) => true | _ => false end.

Definition truthy_str (o : option string) : bool :=
  match o with Some (String _ _) => true | _ => false end.

Definition truthy_dict (o : option dict) : bool :=
  match o with Some d => bool_decide (d ≠ ∅) | None => false end.

Definition value_of_opt_str (o : option string) : value :=
  match o with Some s => VStr s | None => VNone end.

(** ** check_for_approval (agent.py, lines 144-161) *)

(** [event.content and event.content.parts] *)
Definition has_parts (event : Event) : result bool :=
  if truthy_obj (content event) then
    let? ps := getattr "parts" parts (content event) in
    ok (truthy_list ps)
  else ok false.

(** [part.function_call and part.function_call.name == "adk_request_confirmation"] *)
Definition is_confirmation_call (part : Part) : result bool :=
  if truthy_obj (function_call part) then
    let? nm := getattr "name" fc_name (function_call part) in
    ok (bool_decide (nm = Some "adk_request_confirmation"))
  else ok false.

(** The inner loop over the parts of one event: [Some d] when it returns
    [d], [None] when it falls through. *)
Fixpoint check_parts (event : Event) (ps : list Part) : result (option dict) :=
  match ps with
  | [] => ok None
  | part :: ps' =>
      let? hit := is_confirmation_call part in
      if hit then
        let? fid := getattr "id" fc_id (function_call part) in
        ok (Some {[ "approval_id" := value_of_opt_str fid;
                    "invocation_id" := VStr (invocation_id event) ]})
      else check_parts event ps'
  end.

Fixpoint check_for_approval (events : list Event) : result (option dict) :=
  match events with
  | [] => ok None
  | event :: events' =>
      let? go := has_parts event in
      if go then
        let? c_parts := getattr "parts" parts (content event) in
        let? ps := iterate c_parts in
        let? found := check_parts event ps in
        match found with
        | Some d => ok (Some d)
        | None => check_for_approval events'
        end
      else check_for_approval events'
  end.

(** ** create_approval_response (agent.py, lines 171-180) *)

Definition create_approval_response (approval_info : dict) (approved : bool)
  : result Content :=
  let? aid := getitem approval_info "approval_id" in
  let confirmation_response :=
    {| fr_id := aid;
       fr_name := "adk_request_confirmation";
       fr_response := {[ "confirmed" := VBool approved ]} |} in
  ok {| role := Some "user";
        parts := Some [ {| text := None;
                           function_call := None;
                           function_response := Some confirmation_response |} ] |}.

(** ** The workflow driver (agent.py, lines 163-169 and 182-246)

    The runner and its session service belong to the agent framework.  They
    are parameters of the development: a state [St], [create_session] and
    [run_async].  A call of [run_async] yields events and may then raise;
    the driver consumes the events in order.  The random session suffix
    [uuid.uuid4().hex] is an input of the driver. *)

Record RunCall : Type := {
  call_user_id : string;
  call_session_id : string;
  call_new_message : Content;
  call_invocation_id : option value;
}.

(** What the driver can observe and change: the framework's state, the
    calls it made to [run_async], and the lines it printed. *)
Record World (St : Type) : Type := {
  runner : St;
  calls : list RunCall;
  stdout : list string;
}.
Arguments runner {St} _.
Arguments calls {St} _.
Arguments stdout {St} _.

Definition newline : string := String (Ascii.ascii_of_nat 10) EmptyString.

Fixpoint str_repeat (s : string) (n : nat) : string :=
  match n with
  | O => ""
  | S n' => s +:+ str_repeat s n'
  end.

Section Workflow.
Context {St : Type}.
Variable create_session : string → string → string → St → option exn * St.
Variable run_async : RunCall → St → (list Event * option exn) * St.

(** State-and-exception monad of the driver. *)
Definition M (A : Type) : Type := World St → result A * World St.

Definition ret {A} (a : A) : M A := λ w, (ok a, w).

Definition bind {A B} (m : M A) (k : A → M B) : M B :=
  λ w, match m w with
       | (inl e, w') => (inl e, w')
       | (inr a, w') => k a w'
       end.

Definition lift {A} (r : result A) : M A := λ w, (r, w).

Definition print (line : string) : M unit :=
  λ w, (ok tt, {| runner := runner w; calls := calls w;
                  stdout := stdout w ++ [line] |}).

Definition call_create_session (app_name user_id session_id : string) : M unit :=
  λ w, let '(e, st) := create_session app_name user_id session_id (runner w) in
       let w' := {| runner := st; calls := calls w; stdout := stdout w |} in
       (match e with Some x => raise x | None => ok tt end, w').

(** A loop [for event in events: body(event)]. *)
Fixpoint for_each (body : Event → M unit) (events : list Event) : M unit :=
  match events with
  | [] => ret tt
  | event :: events' => bind (body event) (λ _, for_each body events')
  end.

(** [image_runner.run_async(...)]: the call is recorded; the events it
    yields are handed to the loop that consumes them, and an exception of
    the generator is re-raised once they are consumed. *)
Definition call_run_async (c : RunCall) : M (list Event * option exn) :=
  λ w, let '(out, st) := run_async c (runner w) in
       (ok out, {| runner := st; calls := calls w ++ [c]; stdout := stdout w |}).

Definition reraise (e : option exn) : M unit :=
  lift (match e with Some x => raise x | None => ok tt end).

(** The body shared by [print_agent_response] and the resume loop:
    print every non-empty text part of an event. *)
Fixpoint print_parts (ps : list Part) : M unit :=
  match ps with
  | [] => ret tt
  | part :: ps' =>
      bind (if truthy_str (text part)
            then print ("Agent > " +:+ default "" (text part))
            else ret tt)
           (λ _, print_parts ps')
  end.

Definition print_event (event : Event) : M unit :=
  bind (lift (has_parts event)) (λ go,
    if go then
      bind (lift (let? c_parts := getattr "parts" parts (content event) in
                  iterate c_parts))
           print_parts
    else ret tt).

Definition print_agent_response (events : list Event) : M unit :=
  for_each print_event events.

Definition run_image_workflow (query : string) (auto_approve : bool)
    (uuid_hex : string) : M unit :=
  bind (print (newline +:+ str_repeat "=" 60)) (λ _,
  bind (print ("User > " +:+ query +:+ newline)) (λ _,
  let session_id := "order_" +:+ String.substring 0 8 uuid_hex in
  bind (call_create_session "image_generation_app" "test_user" session_id) (λ _,
  let query_content :=
    {| role := Some "user";
       parts := Some [ {| text := Some query; function_call := None;
                          function_response := None |} ] |} in
  (* STEP 1: the initial request; every event is collected *)
  bind (call_run_async {| call_user_id := "test_user";
                          call_session_id := session_id;
                          call_new_message := query_content;
                          call_invocation_id := None |}) (λ out,
  let events := out.1 in
  bind (reraise out.2) (λ _,
  (* STEP 2: look for the confirmation request *)
  bind (lift (check_for_approval events)) (λ approval_info,
  (* STEP 3: resume with the decision, or print what was collected *)
  bind (if truthy_dict approval_info then
          let info := default ∅ approval_info in
          bind (print "⏸️  Pausing for approval...") (λ _,
          bind (print ("🤔 Human Decision: "
                         +:+ (if auto_approve then "APPROVE ✅" else "REJECT ❌")
                         +:+ newline)) (λ _,
          bind (lift (create_approval_response info auto_approve)) (λ message,
          bind (lift (getitem info "invocation_id")) (λ inv,
          bind (call_run_async {| call_user_id := "test_user";
                                  call_session_id := session_id;
                                  call_new_message := message;
                                  call_invocation_id := Some inv |}) (λ out2,
          bind (for_each print_event out2.1) (λ _,
          reraise out2.2))))))
        else print_agent_response events) (λ _,
  print (str_repeat "=" 60 +:+ newline)))))))).

End Workflow.

(** ** The orchestrator of the design document *)

Module Orchestrator.

(** Modelled from the spec: the status of an invocation record (section 3);
    the repository keeps no such record, the agent framework does. *)
Inductive Status : Type := running | suspended | completed | failed.

#[global] Instance Status_eq_dec : EqDecision Status.
Proof. solve_decision. Defined.

(** Modelled from the spec: the error taxonomy of section 7, absent from
    the repository. *)
Inductive Error : Type :=
  | InvocationNotFound
  | NotSuspended
  | GateConsistencyError
  | StepExecutionError
  | StoreUnavailable.

(** Modelled from the spec: the single pending-confirmation slot and the
    invocation record of section 3, absent from the repository. *)
Record PendingConfirmation : Type := {
  gate_id : string;
  requested_payload : dict;
}.

Record InvocationRecord : Type := {
  session_id : string;
  status : Status;
  cursor : nat;
  pending_confirmation : option PendingConfirmation;
}.

(** Modelled from the spec: the event log entries of section 3, absent
    from the repository. *)
Inductive EventKind : Type :=
  | text_event | confirmation_request | confirmation_response | step_result.

Record LogEvent : Type := {
  ev_invocation_id : string;
  kind : EventKind;
  ev_payload : dict;
}.

Abbreviation Store := (gmap string InvocationRecord).

Section Resume.
(** Advancing the pipeline from the suspended step with the decision is
    the work of the step executor, which the design leaves abstract. *)
Variable advance : string → InvocationRecord → bool → InvocationRecord * list LogEvent.

(** Modelled from the spec: the orchestrator's [resume] (section 4.2).
    In the repository a run is resumed by the agent framework's
    [run_async] called with an [invocation_id]; only that call is in
    [agent.py].  [resume] fails with [InvocationNotFound] if the id is
    unknown, fails with [NotSuspended] if the record's status is not
    [suspended], and otherwise continues from the suspended step with
    the decision and stores the advanced record. *)
Definition resume (store : Store) (id : string) (decision : bool)
  : (Error + list LogEvent) * Store :=
  match store !! id with
  | None => (inl InvocationNotFound, store)
  | Some record =>
      if decide (status record = suspended) then
        let '(record', events) := advance id record decision in
        (inr events, <[id := record']> store)
      else (inl NotSuspended, store)
  end.
End Resume.

End Orchestrator.

(** ** Reading an event list by its confirmation requests

    The parts an event carries (none when its content or its parts are
    missing), the confirmation call a part carries, and all confirmation
    calls of an event list in event order, each with its event. *)

Definition parts_of (event : Event) : list Part :=
  match content event with
  | Some c => default [] (parts c)
  | None => []
  end.

Definition confirmation_call_of (part : Part) : option FunctionCall :=
  match function_call part with
  | Some fc =>
      if bool_decide (fc_name fc = Some "adk_request_confirmation")
      then Some fc else None
  | None => None
  end.

Definition confirmation_calls (events : list Event) : list (Event * FunctionCall) :=
  flat_map (λ event, pair event <$> omap confirmation_call_of (parts_of event)) events.

Definition approval_info_of (hit : Event * FunctionCall) : dict :=
  {[ "approval_id" := value_of_opt_str (fc_id hit.2);
     "invocation_id" := VStr (invocation_id hit.1) ]}.

(** A part carries a confirmation request when it has a function call
    named "adk_request_confirmation". *)
Definition requests_confirmation (part : Part) : Prop :=
  ∃ fc, function_call part = Some fc
        ∧ fc_name fc = Some "adk_request_confirmation".

(** No part of any of the events carries a confirmation request. *)
Definition no_request (events : list Event) : Prop :=
  ∀ event part, event ∈ events → part ∈ parts_of event → ¬ requests_confirmation part.

(** The calls of [run_async] that resume an invocation: those that pass an
    [invocation_id]. *)
Definition resume_calls (cs : list RunCall) : list RunCall :=
  filter (λ c, is_Some (call_invocation_id c)) cs.

(** The session id of a run and its first call of [run_async]
    (agent.py, lines 194 and 207-209). *)
Definition session_id_of (uuid_hex : string) : string :=
  "order_" +:+ String.substring 0 8 uuid_hex.

Definition start_call (query uuid_hex : string) : RunCall :=
  {| call_user_id := "test_user";
     call_session_id := session_id_of uuid_hex;
     call_new_message :=
       {| role := Some "user";
          parts := Some [ {| text := Some query; function_call := None;
                             function_response := None |} ] |};
     call_invocation_id := None |}.

(** The message that answers the confirmation call [fc] with the decision
    [approved], and the call of [run_async] that resumes the invocation of
    [event] with it. *)
Definition approval_response (fc : FunctionCall) (approved : bool) : Content :=
  {| role := Some "user";
     parts := Some [ {| text := None;
                        function_call := None;
                        function_response :=
                          Some {| fr_id := value_of_opt_str (fc_id fc);
                                  fr_name := "adk_request_confirmation";
                                  fr_response := {[ "confirmed" := VBool approved ]} |} |} ] |}.

Definition resume_call (uuid_hex : string) (approved : bool)
    (hit : Event * FunctionCall) : RunCall :=
  {| call_user_id := "test_user";
     call_session_id := session_id_of uuid_hex;
     call_new_message := approval_response hit.2 approved;
     call_invocation_id := Some (VStr (invocation_id hit.1)) |}.

(** The calls of [run_async] a run is expected to make, read off the
    framework's answers: the start call once the session exists, and one
    resume call when the start call ended normally and its events hold a
    confirmation request. *)
Definition workflow_calls {St : Type}
    (create_session : string → string → string → St → option exn * St)
    (run_async : RunCall → St → (list Event * option exn) * St)
    (query : string) (auto_approve : bool) (uuid_hex : string) (st : St)
  : list RunCall :=
  match create_session "image_generation_app" "test_user" (session_id_of uuid_hex) st with
  | (Some _, _) => []
  | (None, st0) =>
      start_call query uuid_hex ::
      match run_async (start_call query uuid_hex) st0 with
      | ((_, Some _), _) => []
      | ((events, None), _) =>
          match head (confirmation_calls events) with
          | Some hit => [resume_call uuid_hex auto_approve hit]
          | None => []
          end
      end
  end.

(** ** A sample run

    Events as the framework yields them for a large order, and a runner
    that yields them for the start call and a closing text for a resume
    call.  Its state counts the calls it served. *)

Definition sample_text_part (s : string) : Part :=
  {| text := Some s; function_call := None; function_response := None |}.

Definition sample_confirmation_call (id : string) : FunctionCall :=
  {| fc_id := Some id;
     fc_name := Some "adk_request_confirmation";
     fc_args := None |}.

Definition sample_confirmation_part (id : string) : Part :=
  {| text := None;
     function_call := Some (sample_confirmation_call id);
     function_response := None |}.

Definition sample_skipped : list Event :=
  [ {| invocation_id := "inv-40"; author := "user"; content := None |};
    {| invocation_id := "inv-41"; author := "image_order_agent";
       content := Some {| role := Some "model"; parts := None |} |};
    {| invocation_id := "inv-41"; author := "image_order_agent";
       content := Some {| role := Some "model"; parts := Some [] |} |} ].

Definition sample_request : Event :=
  {| invocation_id := "inv-42"; author := "image_order_agent";
     content := Some {| role := Some "model";
                        parts := Some [ sample_text_part "Approval is required";
                                        sample_confirmation_part "call-7" ] |} |}.

Definition sample_later : Event :=
  {| invocation_id := "inv-43"; author := "image_order_agent";
     content := Some {| role := Some "model";
                        parts := Some [ sample_confirmation_part "call-9" ] |} |}.

Definition sample_events : list Event :=
  (sample_skipped ++ sample_request :: [sample_later])%list.

Definition sample_create_session (app_name user_id session_id : string) (st : nat)
  : option exn * nat := (None, st).

Definition sample_run_async (c : RunCall) (st : nat) : (list Event * option exn) * nat :=
  match call_invocation_id c with
  | None => ((sample_events, None), S st)
  | Some _ =>
      (([ {| invocation_id := "inv-42"; author := "image_order_agent";
             content := Some {| role := Some "model";
                                parts := Some [ sample_text_part "Order approved" ] |} |} ],
        None), S st)
  end.

Definition sample_world : World nat :=
  {| runner := O; calls := []; stdout := [] |}.

Definition sample_store : gmap string Orchestrator.InvocationRecord :=
  {[ "inv-done" := {| Orchestrator.session_id := "order_0123abcd";
                      Orchestrator.status := Orchestrator.completed;
                      Orchestrator.cursor := 2%nat;
                      Orchestrator.pending_confirmation := None |} ]}.

(** ** The lines a run prints

    The line printed for a part (agent.py, lines 168-169 and 237-238), the
    lines printed for a list of events, and the fixed lines of the driver
    (agent.py, lines 190-191, 221-222 and 246). *)

Definition agent_line (part : Part) : option string :=
  match text part with
  | Some (String c t) => Some ("Agent > " +:+ String c t)
  | _ => None
  end.

Definition agent_lines (events : list Event) : list string :=
  flat_map (λ event, omap agent_line (parts_of event)) events.

Definition banner_open : string := newline +:+ str_repeat "=" 60.

Definition banner_close : string := str_repeat "=" 60 +:+ newline.

Definition user_line (query : string) : string := "User > " +:+ query +:+ newline.

Definition pausing_line : string := "⏸️  Pausing for approval...".

Definition decision_line (auto_approve : bool) : string :=
  "🤔 Human Decision: " +:+ (if auto_approve then "APPROVE ✅" else "REJECT ❌") +:+ newline.

(** A world after [lines] were printed. *)
Definition printed {St : Type} (w : World St) (lines : list string) : World St :=
  {| runner := runner w; calls := calls w; stdout := (stdout w ++ lines)%list |}.

(** The outcome of a run, read off the framework's answers: the result,
    the framework state, the calls made and the lines printed. *)
Definition workflow_outcome {St : Type}
    (create_session : string → string → string → St → option exn * St)
    (run_async : RunCall → St → (list Event * option exn) * St)
    (query : string) (auto_approve : bool) (uuid_hex : string) (w : World St)
  : result unit * World St :=
  let opening := [banner_open; user_line query] in
  let start := start_call query uuid_hex in
  match create_session "image_generation_app" "test_user"
          (session_id_of uuid_hex) (runner w) with
  | (Some e, st0) =>
      (raise e, {| runner := st0; calls := calls w;
                   stdout := (stdout w ++ opening)%list |})
  | (None, st0) =>
      match run_async start st0 with
      | ((_, Some e), st1) =>
          (raise e, {| runner := st1; calls := (calls w ++ [start])%list;
                       stdout := (stdout w ++ opening)%list |})
      | ((events, None), st1) =>
          match head (confirmation_calls events) with
          | None =>
              (ok tt, {| runner := st1; calls := (calls w ++ [start])%list;
                         stdout := (stdout w ++ opening ++ agent_lines events
                                      ++ [banner_close])%list |})
          | Some hit =>
              let resume := resume_call uuid_hex auto_approve hit in
              match run_async resume st1 with
              | ((events2, e2), st2) =>
                  (match e2 with Some e => raise e | None => ok tt end,
                   {| runner := st2; calls := (calls w ++ [start; resume])%list;
                      stdout := (stdout w ++ opening
                                   ++ [pausing_line; decision_line auto_approve]
                                   ++ agent_lines events2
                                   ++ match e2 with
                                      | Some _ => []
                                      | None => [banner_close]
                                      end)%list |})
              end
          end
      end
  end.

(** The last character of a string. *)
Fixpoint last_char (s : string) : option Ascii.ascii :=
  match s with
  | EmptyString => None
  | String c EmptyString => Some c
  | String _ t => last_char t
  end.

(** ** The three demonstration runs (agent.py, lines 256-264)

    Each run draws its own random session suffix. *)



(** Runners that fail: the session cannot be created; the start call
    raises after yielding the sample events; the resume call raises after
    yielding its closing text. *)
Definition failing_create_session (app_name user_id session_id : string) (st : nat)
  : option exn * nat := (Some (FrameworkError "session exists"), st).

Definition failing_start (c : RunCall) (st : nat) : (list Event * option exn) * nat :=
  ((sample_events, Some (FrameworkError "model unavailable")), S st).

Definition failing_resume (c : RunCall) (st : nat) : (list Event * option exn) * nat :=
  match call_invocation_id c with
  | None => ((sample_events, None), S st)
  | Some _ =>
      (([ {| invocation_id := "inv-42"; author := "image_order_agent";
             content := Some {| role := Some "model";
                                parts := Some [ sample_text_part "Placing order" ] |} |} ],
        Some (FrameworkError "model unavailable")), S st)
  end.

(** A runner whose start call yields only text. *)
Definition quiet_run_async (c : RunCall) (st : nat) : (list Event * option exn) * nat :=
  (([ {| invocation_id := "inv-7"; author := "image_order_agent";
         content := Some {| role := Some "model";
                            parts := Some [ sample_text_part "Order auto-approved";
                                            sample_text_part "" ] |} |} ],
    None), S st).

(** ** The counting plugin (day4/research-agent-with-plugin/agent.py,
       lines 22-57)

    The plugin object holds three counters.  Each callback adds one to its
    counter, logs a line at INFO level and prints the same line; the
    arguments the framework passes (agent, tool, request, contexts) are not
    read. *)

Module CountInvocation.

Record Plugin : Type := {
  name : string;
  agent_count : Z;
  tool_count : Z;
  llm_request_count : Z;
}.

(** The plugin together with the log records and the printed lines. *)
Record Env : Type := {
  self : Plugin;
  logged : list string;
  shown : list string;
}.

(** [__init__] *)
Definition init : Plugin :=
  {| name := "count_invocation";
     agent_count := 0; tool_count := 0; llm_request_count := 0 |}.

Definition fresh : Env := {| self := init; logged := []; shown := [] |}.

Definition before_agent_callback (e : Env) : Env :=
  let self' := {| name := name (self e);
                  agent_count := agent_count (self e) + 1;
                  tool_count := tool_count (self e);
                  llm_request_count := llm_request_count (self e) |} in
  let line := "[Plugin] Agent run count: " +:+ str_of_int (agent_count self') in
  {| self := self'; logged := logged e ++ [line]; shown := shown e ++ [line] |}.

Definition before_model_callback (e : Env) : Env :=
  let self' := {| name := name (self e);
                  agent_count := agent_count (self e);
                  tool_count := tool_count (self e);
                  llm_request_count := llm_request_count (self e) + 1 |} in
  let line := "[Plugin] LLM request count: " +:+ str_of_int (llm_request_count self') in
  {| self := self'; logged := logged e ++ [line]; shown := shown e ++ [line] |}.

Definition before_tool_callback (e : Env) : Env :=
  let self' := {| name := name (self e);
                  agent_count := agent_count (self e);
                  tool_count := tool_count (self e) + 1;
                  llm_request_count := llm_request_count (self e) |} in
  let line := "[Plugin] tool request count: " +:+ str_of_int (tool_count self') in
  {| self := self'; logged := logged e ++ [line]; shown := shown e ++ [line] |}.

(** The callbacks the framework may invoke, and a sequence of them run in
    order on the plugin. *)
Inductive Callback : Type := AgentRun | ModelRequest | ToolRequest.

#[global] Instance Callback_eq_dec : EqDecision Callback.
Proof. solve_decision. Defined.

Definition invoke (cb : Callback) : Env → Env :=
  match cb with
  | AgentRun => before_agent_callback
  | ModelRequest => before_model_callback
  | ToolRequest => before_tool_callback
  end.

Definition run (cbs : list Callback) (e : Env) : Env :=
  fold_left (λ e cb, invoke cb e) cbs e.

Definition occurrences (cb : Callback) (cbs : list Callback) : Z :=
  Z.of_nat (length (filter (λ c, c = cb) cbs)).

Definition counter (cb : Callback) (p : Plugin) : Z :=
  match cb with
  | AgentRun => agent_count p
  | ModelRequest => llm_request_count p
  | ToolRequest => tool_count p
  end.

Definition label (cb : Callback) : string :=
  match cb with
  | AgentRun => "[Plugin] Agent run count: "
  | ModelRequest => "[Plugin] LLM request count: "
  | ToolRequest => "[Plugin] tool request count: "
  end.

End CountInvocation.

(** ** The support-agent query (day5/a2a_practice/support_agent.py,
       lines 71-124)

    The function builds its own session service and runner, so the
    framework state it works on starts out as that of a new service,
    [new_service].  Whether an event is a final response is decided by the
    framework ([is_final_response]). *)

Module A2A.

Section Query.
Context {St : Type}.
Variable new_service : St.
Variable create_session : string → string → string → St → option exn * St.
Variable run_async : RunCall → St → (list Event * option exn) * St.
Variable is_final_response : Event → bool.

(** [print(part.text)]: a part always has the attribute [text]; a missing
    text prints as "None". *)
Definition text_line (part : Part) : string :=
  match text part with
  | Some t => t
  | None => "None"
  end.

Fixpoint print_texts (ps : list Part) : @M St unit :=
  match ps with
  | [] => ret tt
  | part :: ps' => bind (print (text_line part)) (λ _, print_texts ps')
  end.

(** The body of the loop over the events of the run. *)
Definition show_final (event : Event) : @M St unit :=
  if is_final_response event && truthy_obj (content event) then
    bind (lift (let? c_parts := getattr "parts" parts (content event) in
                iterate c_parts))
         print_texts
  else ret tt.

Definition with_new_service : @M St unit :=
  λ w, (ok tt, {| runner := new_service; calls := calls w; stdout := stdout w |}).

Definition test_a2a_communication (user_query uuid_hex : string) : @M St unit :=
  bind with_new_service (λ _,
  let app_name := "support_app" in
  let user_id := "demo_user" in
  let session_id := "demo_session_" +:+ String.substring 0 8 uuid_hex in
  bind (call_create_session create_session app_name user_id session_id) (λ _,
  let test_content :=
    {| role := None;
       parts := Some [ {| text := Some user_query; function_call := None;
                          function_response := None |} ] |} in
  bind (print (newline +:+ "👤 Customer: " +:+ user_query)) (λ _,
  bind (print (newline +:+ "🎧 Support Agent response:")) (λ _,
  bind (print (str_repeat "-" 60)) (λ _,
  bind (call_run_async run_async
          {| call_user_id := user_id;
             call_session_id := session_id;
             call_new_message := test_content;
             call_invocation_id := None |}) (λ out,
  bind (for_each show_final out.1) (λ _,
  bind (reraise out.2) (λ _,
  print (str_repeat "-" 60))))))))).

(** The lines printed for a list of events: the texts of the parts of the
    final responses. *)
Definition final_lines (events : list Event) : list string :=
  flat_map (λ event, if is_final_response event
                     then text_line <$> parts_of event else []) events.

(** A final response whose content has no part list. *)
Definition partless (event : Event) : Prop :=
  is_final_response event = true
  ∧ ∃ c, content event = Some c ∧ parts c = None.

Definition query_call (user_query uuid_hex : string) : RunCall :=
  {| call_user_id := "demo_user";
     call_session_id := "demo_session_" +:+ String.substring 0 8 uuid_hex;
     call_new_message :=
       {| role := None;
          parts := Some [ {| text := Some user_query; function_call := None;
                             function_response := None |} ] |};
     call_invocation_id := None |}.

Definition query_opening (user_query : string) : list string :=
  [ newline +:+ "👤 Customer: " +:+ user_query;
    newline +:+ "🎧 Support Agent response:";
    str_repeat "-" 60 ].

End Query.

(** A sample answer: a tool call in between, then the final response with a
    text, an empty text and a part without text. *)
Definition sample_final (event : Event) : bool :=
  bool_decide (author event = "customer_support_agent").

Definition sample_answer : list Event :=
  [ {| invocation_id := "inv-1"; author := "product_catalog_agent";
       content := Some {| role := Some "model";
                          parts := Some [ sample_text_part "lookup" ] |} |};
    {| invocation_id := "inv-1"; author := "customer_support_agent";
       content := Some {| role := Some "model";
                          parts := Some [ sample_text_part "In stock";
                                          sample_text_part "";
                                          sample_confirmation_part "call-1" ] |} |} ].


Definition answer_run_async (c : RunCall) (st : nat) : (list Event * option exn) * nat :=
  ((sample_answer, None), S st).


End A2A.

(** * Properties of the confirmation gate *)

Section Gate.
Implicit Types (num_images : Z) (tool_context : ToolContext).

(** The three branches of the gate, as equations. *)
Lemma gate_auto num_images tool_context :
  num_images ≤ LARGE_ORDER_THRESHOLD →
  place_image_generation_order num_images tool_context =
    ({[ "status" := VStr "approved";
        "order_id" := VStr ("ORD-" +:+ str_of_int num_images +:+ "-AUTO");
        "num_images" := VInt num_images;
        "message" := VStr ("Order auto-approved: " +:+ str_of_int num_images +:+ " images") ]},
     tool_context).
Proof. intros Hle. unfold place_image_generation_order. by rewrite decide_True. Qed.

Lemma gate_first num_images tool_context :
  LARGE_ORDER_THRESHOLD < num_images →
  tool_confirmation tool_context = None →
  place_image_generation_order num_images tool_context =
    ({[ "status" := VStr "pending";
        "message" := VStr ("Order for " +:+ str_of_int num_images
                             +:+ " images requires approval") ]},
     request_confirmation (pending_hint num_images)
       {[ "num_images" := VInt num_images ]} tool_context).
Proof.
  intros Hgt Hnone. unfold place_image_generation_order.
  rewrite decide_False by lia. by rewrite Hnone.
Qed.

Lemma gate_resumed num_images tool_context tc :
  LARGE_ORDER_THRESHOLD < num_images →
  tool_confirmation tool_context = Some tc →
  place_image_generation_order num_images tool_context =
    (if confirmed tc then
       {[ "status" := VStr "approved";
          "order_id" := VStr ("ORD-" +:+ str_of_int num_images +:+ "-HUMAN");
          "num_images" := VInt num_images;
          "message" := VStr ("Order approved: " +:+ str_of_int num_images +:+ " images") ]}
     else
       {[ "status" := VStr "rejected";
          "message" := VStr ("Order rejected: " +:+ str_of_int num_images +:+ " images") ]},
     tool_context).
Proof.
  intros Hgt Hsome. unfold place_image_generation_order.
  rewrite decide_False by lia. rewrite Hsome. by destruct (confirmed tc).
Qed.

(** The gate answers "pending" exactly on the first call of a large order:
    this is what suspends an invocation. *)
Lemma gate_pending_iff num_images tool_context :
  (place_image_generation_order num_images tool_context).1 !! "status"
    = Some (VStr "pending")
  ↔ LARGE_ORDER_THRESHOLD < num_images ∧ tool_confirmation tool_context = None.
Proof.
  destruct (decide (num_images ≤ LARGE_ORDER_THRESHOLD)) as [Hle|Hgt].
  - rewrite gate_auto by done. split; [done | lia].
  - destruct (tool_confirmation tool_context) as [tc|] eqn:Htc.
    + rewrite (gate_resumed _ _ tc) by (done || lia).
      split; [by destruct (confirmed tc) | by intros [_ ?]].
    + rewrite gate_first by (done || lia). split; [intros _; split; [lia | done] | done].
Qed.

(** C1: a call of the gate with [num_images] above the threshold and no
    confirmation ticket records one confirmation request, carrying the
    readable hint and the raw payload [{"num_images": num_images}], and
    returns status "pending" without placing the order: the result has no
    [order_id]. *)
Theorem gate_requests_confirmation num_images tool_context :
  LARGE_ORDER_THRESHOLD < num_images →
  tool_confirmation tool_context = None →
  let out := place_image_generation_order num_images tool_context in
  requested_confirmations out.2 =
    (requested_confirmations tool_context
       ++ [ {| hint := pending_hint num_images;
               confirmed := false;
               payload := Some {[ "num_images" := VInt num_images ]} |} ])%list
  ∧ out.1 !! "status" = Some (VStr "pending")
  ∧ out.1 !! "order_id" = None
  ∧ orders_placed [out.1] = [].
Proof.
  intros Hgt Hnone out. subst out. rewrite gate_first by done.
  repeat split.
Qed.

Lemma gate_requests_confirmation_witness :
  let c := {| ctx_invocation_id := "inv-1"; function_call_id := "call-1";
              tool_confirmation := None; requested_confirmations := [] |} in
  let out := place_image_generation_order 8 c in
  requested_confirmations out.2 =
    [ {| hint := "⚠️ Large order: 8 images. Do you want to approve?";
         confirmed := false;
         payload := Some {[ "num_images" := VInt 8 ]} |} ]
  ∧ out.1 !! "status" = Some (VStr "pending")
  ∧ out.1 !! "order_id" = None
  ∧ orders_placed [out.1] = [].
Proof.
  intros c.
  apply (gate_requests_confirmation 8 c); [unfold LARGE_ORDER_THRESHOLD; lia | reflexivity].
Defined.

(** C2: when an invocation was suspended by the gate (its first call, with
    no ticket, answered "pending") and the tool is called again for the
    same [num_images] with a ticket confirmed as true, the gate returns
    the approved outcome and the order is placed exactly once over the two
    calls: only the resumed result carries an [order_id].  The resumed call
    requests no further confirmation. *)
Theorem resume_true_places_order_once num_images first_context tool_context tc :
  (place_image_generation_order num_images first_context).1 !! "status"
    = Some (VStr "pending") →
  tool_confirmation tool_context = Some tc →
  confirmed tc = true →
  let first := place_image_generation_order num_images first_context in
  let resumed := place_image_generation_order num_images tool_context in
  resumed.1 !! "status" = Some (VStr "approved")
  ∧ resumed.1 !! "order_id"
      = Some (VStr ("ORD-" +:+ str_of_int num_images +:+ "-HUMAN"))
  ∧ resumed.1 !! "num_images" = Some (VInt num_images)
  ∧ orders_placed [first.1; resumed.1]
      = [VStr ("ORD-" +:+ str_of_int num_images +:+ "-HUMAN")]
  ∧ resumed.2 = tool_context.
Proof.
  intros Hpend Hsome Hyes first resumed. subst first resumed.
  apply gate_pending_iff in Hpend as [Hgt Hnone].
  rewrite (gate_first _ first_context) by done.
  rewrite (gate_resumed _ tool_context tc) by done.
  rewrite Hyes. repeat split.
Qed.

Lemma resume_true_places_order_once_witness :
  let c0 := {| ctx_invocation_id := "inv-1"; function_call_id := "call-1";
               tool_confirmation := None; requested_confirmations := [] |} in
  let tc := {| hint := ""; confirmed := true; payload := None |} in
  let c1 := with_confirmation (Some tc) c0 in
  let first := place_image_generation_order 10 c0 in
  let resumed := place_image_generation_order 10 c1 in
  resumed.1 !! "status" = Some (VStr "approved")
  ∧ resumed.1 !! "order_id" = Some (VStr "ORD-10-HUMAN")
  ∧ resumed.1 !! "num_images" = Some (VInt 10)
  ∧ orders_placed [first.1; resumed.1] = [VStr "ORD-10-HUMAN"]
  ∧ resumed.2 = c1.
Proof.
  intros c0 tc c1.
  apply (resume_true_places_order_once 10 c0 c1 tc); reflexivity.
Defined.

(** C3: when an invocation was suspended by the gate and the tool is
    called again for the same [num_images] with a ticket confirmed as
    false, the gate returns the rejected outcome and no order is placed:
    neither result carries an [order_id], and nothing further is
    requested. *)
Theorem resume_false_places_no_order num_images first_context tool_context tc :
  (place_image_generation_order num_images first_context).1 !! "status"
    = Some (VStr "pending") →
  tool_confirmation tool_context = Some tc →
  confirmed tc = false →
  let first := place_image_generation_order num_images first_context in
  let resumed := place_image_generation_order num_images tool_context in
  resumed.1 !! "status" = Some (VStr "rejected")
  ∧ resumed.1 !! "order_id" = None
  ∧ orders_placed [first.1; resumed.1] = []
  ∧ resumed.2 = tool_context.
Proof.
  intros Hpend Hsome Hno first resumed. subst first resumed.
  apply gate_pending_iff in Hpend as [Hgt Hnone].
  rewrite (gate_first _ first_context) by done.
  rewrite (gate_resumed _ tool_context tc) by done.
  rewrite Hno. repeat split.
Qed.

Lemma resume_false_places_no_order_witness :
  let c0 := {| ctx_invocation_id := "inv-3"; function_call_id := "call-3";
               tool_confirmation := None; requested_confirmations := [] |} in
  let tc := {| hint := ""; confirmed := false; payload := None |} in
  let c1 := with_confirmation (Some tc) c0 in
  let first := place_image_generation_order 8 c0 in
  let resumed := place_image_generation_order 8 c1 in
  resumed.1 !! "status" = Some (VStr "rejected")
  ∧ resumed.1 !! "order_id" = None
  ∧ orders_placed [first.1; resumed.1] = []
  ∧ resumed.2 = c1.
Proof.
  intros c0 tc c1.
  apply (resume_false_places_no_order 8 c0 c1 tc); reflexivity.
Defined.

(** C4: a call of the gate with [num_images] at or below the threshold,
    which is 1, returns the auto-approved outcome at once, whatever the
    confirmation state: no confirmation is requested (the context is
    unchanged), the status is not "pending", and the order is placed once,
    under the [order_id] "ORD-<num_images>-AUTO". *)
Theorem small_order_auto_approved num_images tool_context :
  num_images ≤ LARGE_ORDER_THRESHOLD →
  let out := place_image_generation_order num_images tool_context in
  LARGE_ORDER_THRESHOLD = 1
  ∧ out.1 !! "status" = Some (VStr "approved")
  ∧ out.1 !! "message"
      = Some (VStr ("Order auto-approved: " +:+ str_of_int num_images +:+ " images"))
  ∧ out.1 !! "order_id"
      = Some (VStr ("ORD-" +:+ str_of_int num_images +:+ "-AUTO"))
  ∧ orders_placed [out.1]
      = [VStr ("ORD-" +:+ str_of_int num_images +:+ "-AUTO")]
  ∧ out.2 = tool_context.
Proof.
  intros Hle out. subst out. rewrite gate_auto by done. repeat split.
Qed.

Lemma small_order_auto_approved_witness :
  let c := {| ctx_invocation_id := "inv-0"; function_call_id := "call-0";
              tool_confirmation := None; requested_confirmations := [] |} in
  let out := place_image_generation_order 1 c in
  LARGE_ORDER_THRESHOLD = 1
  ∧ out.1 !! "status" = Some (VStr "approved")
  ∧ out.1 !! "message" = Some (VStr "Order auto-approved: 1 images")
  ∧ out.1 !! "order_id" = Some (VStr "ORD-1-AUTO")
  ∧ orders_placed [out.1] = [VStr "ORD-1-AUTO"]
  ∧ out.2 = c.
Proof.
  intros c.
  apply (small_order_auto_approved 1 c). unfold LARGE_ORDER_THRESHOLD. lia.
Defined.

(** C6: an order of 10 images is above the threshold.  Its first call, in
    any context without a ticket, returns "pending" and requests a
    confirmation whose payload is [{"num_images": 10}] (the units of the
    order); the call resumed with a ticket confirmed as true returns
    "approved", and over the two calls the order is placed once, for 10
    images. *)
Theorem order_of_ten_approved_after_resume tool_context ticket_hint ticket_payload :
  let first_context := with_confirmation None tool_context in
  let first := place_image_generation_order 10 first_context in
  let ticket := {| hint := ticket_hint; confirmed := true;
                   payload := ticket_payload |} in
  let resumed :=
    place_image_generation_order 10 (with_confirmation (Some ticket) first.2) in
  LARGE_ORDER_THRESHOLD < 10
  ∧ first.1 !! "status" = Some (VStr "pending")
  ∧ payload <$> last (requested_confirmations first.2)
      = Some (Some {[ "num_images" := VInt 10 ]})
  ∧ resumed.1 !! "status" = Some (VStr "approved")
  ∧ orders_placed [first.1; resumed.1] = [VStr "ORD-10-HUMAN"]
  ∧ resumed.1 !! "num_images" = Some (VInt 10).
Proof.
  intros first_context first ticket resumed.
  assert (Hgt : LARGE_ORDER_THRESHOLD < 10) by (unfold LARGE_ORDER_THRESHOLD; lia).
  assert (Hfirst : first =
    ({[ "status" := VStr "pending";
        "message" := VStr ("Order for " +:+ str_of_int 10 +:+ " images requires approval") ]},
     request_confirmation (pending_hint 10) {[ "num_images" := VInt 10 ]} first_context)).
  { by apply gate_first. }
  assert (Hres : resumed.1 =
    {[ "status" := VStr "approved";
       "order_id" := VStr ("ORD-" +:+ str_of_int 10 +:+ "-HUMAN");
       "num_images" := VInt 10;
       "message" := VStr ("Order approved: " +:+ str_of_int 10 +:+ " images") ]}).
  { subst resumed. by rewrite (gate_resumed _ _ ticket). }
  rewrite Hres, Hfirst. cbn [fst snd request_confirmation requested_confirmations].
  rewrite last_snoc. repeat split.
Qed.

(** C8: every call of the gate returns a dictionary whose "status" is
    "approved", "pending" or "rejected", which always has a "message"
    string, and which has an "order_id" and a "num_images" entry exactly
    when the status is "approved". *)
Theorem gate_result_shape num_images tool_context :
  let r := (place_image_generation_order num_images tool_context).1 in
  (r !! "status" = Some (VStr "approved")
   ∨ r !! "status" = Some (VStr "pending")
   ∨ r !! "status" = Some (VStr "rejected"))
  ∧ (∃ m, r !! "message" = Some (VStr m))
  ∧ (is_Some (r !! "order_id") ↔ r !! "status" = Some (VStr "approved"))
  ∧ (is_Some (r !! "num_images") ↔ r !! "status" = Some (VStr "approved")).
Proof.
  intros r. subst r.
  destruct (decide (num_images ≤ LARGE_ORDER_THRESHOLD)) as [Hle|Hgt].
  - rewrite gate_auto by done. cbn [fst].
    split_and!; [by left | by eexists | split; [done | by eexists] ..].
  - destruct (tool_confirmation tool_context) as [tc|] eqn:Htc.
    + rewrite (gate_resumed _ _ tc) by (done || lia).
      destruct (confirmed tc); cbn [fst].
      * split_and!; [by left | by eexists | split; [done | by eexists] ..].
      * split_and!; [by right; right | by eexists | split; [by intros [? ?] | done] ..].
    + rewrite gate_first by (done || lia). cbn [fst].
      split_and!; [by right; left | by eexists | split; [by intros [? ?] | done] ..].
Qed.

(** C9: the result of the gate is a function of [num_images] and of the
    confirmation state alone (no ticket, a ticket confirmed as true, a
    ticket confirmed as false): two calls that agree on both return equal
    dictionaries, whatever else their contexts hold. *)
Theorem gate_deterministic n1 n2 (c1 c2 : ToolContext) :
  n1 = n2 →
  confirmation_state c1 = confirmation_state c2 →
  (place_image_generation_order n1 c1).1 = (place_image_generation_order n2 c2).1.
Proof.
  intros <- Hstate. unfold confirmation_state in Hstate.
  unfold place_image_generation_order. case_decide; [done|].
  destruct (tool_confirmation c1) as [t1|], (tool_confirmation c2) as [t2|];
    simplify_eq/=; [|done].
  rewrite Hstate. by destruct (confirmed t2).
Qed.

Lemma gate_deterministic_witness :
  (place_image_generation_order 8
     {| ctx_invocation_id := "inv-a"; function_call_id := "call-a";
        tool_confirmation := Some {| hint := "first"; confirmed := false;
                                     payload := None |};
        requested_confirmations := [] |}).1
  = (place_image_generation_order 8
       {| ctx_invocation_id := "inv-b"; function_call_id := "call-b";
          tool_confirmation :=
            Some {| hint := "second"; confirmed := false;
                    payload := Some {[ "num_images" := VInt 8 ]} |};
          requested_confirmations :=
            [ {| hint := "old"; confirmed := false; payload := None |} ] |}).1.
Proof. apply gate_deterministic; reflexivity. Defined.
End Gate.

(** * Properties of the event scan *)

Section Scan.
Implicit Types (event : Event) (events : list Event) (part : Part).

Lemma is_confirmation_call_spec part :
    is_confirmation_call part = ok (bool_decide (is_Some (confirmation_call_of part))).
  Proof.
    unfold is_confirmation_call, confirmation_call_of.
    destruct (function_call part) as [fc|]; simpl.
    - f_equal. case_bool_decide as Hn; symmetry.
      + by apply bool_decide_eq_true.
      + apply bool_decide_eq_false. by intros [? ?].
    - done.
  Qed.

Lemma check_parts_spec event (ps : list Part) :
    check_parts event ps
    = ok (approval_info_of <$> head (pair event <$> omap confirmation_call_of ps)).
  Proof.
    induction ps as [|part ps IH]; [done|].
    cbn [check_parts]. rewrite is_confirmation_call_spec. cbn [rbind ok].
    cbn [omap list_omap].
    destruct (confirmation_call_of part) as [fc|] eqn:Hfc.
    - rewrite bool_decide_eq_true_2 by eauto.
      unfold confirmation_call_of in Hfc.
      destruct (function_call part) as [fc'|]; [|done].
      case_bool_decide; simplify_eq. done.
    - rewrite bool_decide_eq_false_2 by (by intros [? ?]). exact IH.
  Qed.

  (** An event without content, without parts, or with an empty part list
      is skipped. *)
Lemma check_for_approval_skip event events :
    parts_of event = [] →
    check_for_approval (event :: events) = check_for_approval events.
  Proof.
    unfold parts_of. intros Hnil. cbn [check_for_approval]. unfold has_parts.
    destruct (content event) as [c|]; [|done]. simpl.
    destruct (parts c) as [[|p ps]|]; simplify_eq/=; done.
  Qed.

Lemma check_for_approval_scan event events (ps : list Part) :
  parts_of event = ps →
  ps ≠ [] →
  check_for_approval (event :: events)
  = let? found := check_parts event ps in
    match found with
    | Some d => ok (Some d)
    | None => check_for_approval events
    end.
Proof.
  unfold parts_of. intros Hps Hne. cbn [check_for_approval]. unfold has_parts.
  destruct (content event) as [c|]; [|by subst].
  cbn [truthy_obj getattr rbind ok].
  destruct (parts c) as [[|p' ps']|]; cbn [default] in Hps; subst; try done.
Qed.

Lemma check_for_approval_first events :
  check_for_approval events
  = ok (approval_info_of <$> head (confirmation_calls events)).
Proof.
  induction events as [|event events IH]; [done|].
  unfold confirmation_calls in *. cbn [flat_map].
  destruct (parts_of event) as [|p ps] eqn:Hps.
  - rewrite check_for_approval_skip by done. exact IH.
  - rewrite (check_for_approval_scan _ _ (p :: ps)) by done.
    rewrite check_parts_spec. cbn [rbind ok].
    destruct (pair event <$> omap confirmation_call_of (p :: ps)) as [|hit hits];
      [exact IH | done].
Qed.

Lemma confirmation_call_of_Some part fc :
  confirmation_call_of part = Some fc
  ↔ function_call part = Some fc ∧ fc_name fc = Some "adk_request_confirmation".
Proof.
  unfold confirmation_call_of. destruct (function_call part) as [fc'|].
  - case_bool_decide as Hname.
    + split; [intros [= ->]; done | intros [[= ->] _]; done].
    + split; [done | intros [[= ->] ?]; done].
  - split; [done | intros [? _]; done].
Qed.

Lemma confirmation_call_of_None part :
  confirmation_call_of part = None ↔ ¬ requests_confirmation part.
Proof.
  unfold requests_confirmation. split.
  - intros Hnone [fc Hfc]. apply confirmation_call_of_Some in Hfc. congruence.
  - intros Hno. destruct (confirmation_call_of part) as [fc|] eqn:Hfc; [|done].
    apply confirmation_call_of_Some in Hfc. destruct Hno. eauto.
Qed.

Lemma omap_confirmation_none (ps : list Part) :
  (∀ part, part ∈ ps → ¬ requests_confirmation part) →
  omap confirmation_call_of ps = [].
Proof.
  induction ps as [|part ps IH]; intros Hall; [done|].
  cbn [omap list_omap].
  rewrite (proj2 (confirmation_call_of_None part)) by (apply Hall; left).
  apply IH. intros q Hq. apply Hall. by right.
Qed.

Lemma confirmation_calls_none events :
  no_request events → confirmation_calls events = [].
Proof.
  unfold no_request, confirmation_calls.
  induction events as [|event events IH]; intros Hall; [done|].
  cbn [flat_map]. rewrite omap_confirmation_none.
  - apply IH. intros e q He. apply Hall. by right.
  - intros q Hq. apply (Hall event); [left | done].
Qed.

Lemma confirmation_calls_first before event after (pre post : list Part) part fc :
  no_request before →
  parts_of event = (pre ++ part :: post)%list →
  (∀ q, q ∈ pre → ¬ requests_confirmation q) →
  function_call part = Some fc →
  fc_name fc = Some "adk_request_confirmation" →
  head (confirmation_calls (before ++ event :: after)) = Some (event, fc).
Proof.
  intros Hbefore Hparts Hpre Hcall Hname.
  unfold confirmation_calls. rewrite flat_map_app. fold (confirmation_calls before).
  rewrite confirmation_calls_none by done. cbn [app flat_map].
  rewrite Hparts, omap_app, omap_confirmation_none by done.
  cbn [app omap list_omap].
  by rewrite (proj2 (confirmation_call_of_Some part fc)).
Qed.

(** C10: for every list of events, [check_for_approval] raises nothing;
    it returns [None] when no part of any event carries a function call
    named "adk_request_confirmation"; otherwise it returns a dictionary
    with exactly the keys "approval_id" and "invocation_id", taken from the
    first such part in event order (the call's id and its event's
    invocation id); an event whose content or parts are missing or empty is
    skipped. *)
Theorem check_for_approval_finds_first events :
  (∃ r, check_for_approval events = ok r)
  ∧ (no_request events → check_for_approval events = ok None)
  ∧ (∀ before event after (pre post : list Part) part fc,
       events = (before ++ event :: after)%list →
       no_request before →
       parts_of event = (pre ++ part :: post)%list →
       (∀ q, q ∈ pre → ¬ requests_confirmation q) →
       function_call part = Some fc →
       fc_name fc = Some "adk_request_confirmation" →
       ∃ d : dict,
         check_for_approval events = ok (Some d)
         ∧ dom d = {[ "approval_id"; "invocation_id" ]}
         ∧ d !! "approval_id" = Some (value_of_opt_str (fc_id fc))
         ∧ d !! "invocation_id" = Some (VStr (invocation_id event)))
  ∧ (∀ event,
       content event = None
       ∨ (∃ c, content event = Some c ∧ (parts c = None ∨ parts c = Some [])) →
       check_for_approval (event :: events) = check_for_approval events).
Proof.
  split_and!.
  - rewrite check_for_approval_first. eauto.
  - intros Hno. rewrite check_for_approval_first.
    by rewrite confirmation_calls_none.
  - intros before event after pre post part fc -> Hbefore Hparts Hpre Hcall Hname.
    rewrite check_for_approval_first.
    rewrite (confirmation_calls_first _ _ _ pre post part fc) by done.
    eexists. split; [reflexivity|]. unfold approval_info_of. cbn [fst snd].
    split_and!; [set_solver | done | done].
  - intros event Hempty. apply check_for_approval_skip. unfold parts_of.
    destruct Hempty as [-> | (c & -> & [-> | ->])]; done.
Qed.
Lemma sample_skipped_no_request : no_request sample_skipped.
Proof.
  intros event part Hevent Hpart. unfold sample_skipped in Hevent.
  repeat (apply elem_of_cons in Hevent as [-> | Hevent]);
    by apply elem_of_nil in Hpart || by apply elem_of_nil in Hevent.
Qed.

Lemma sample_text_no_request (q : Part) :
  q ∈ [sample_text_part "Approval is required"] → ¬ requests_confirmation q.
Proof. intros ->%list_elem_of_singleton [fc [Hcall _]]. done. Qed.

Lemma check_for_approval_finds_first_witness :
  ∃ d : dict,
    check_for_approval sample_events = ok (Some d)
    ∧ dom d = {[ "approval_id"; "invocation_id" ]}
    ∧ d !! "approval_id" = Some (VStr "call-7")
    ∧ d !! "invocation_id" = Some (VStr "inv-42").
Proof.
  destruct (check_for_approval_finds_first sample_events) as (_ & _ & Hfirst & _).
  apply (Hfirst sample_skipped sample_request [sample_later]
           [sample_text_part "Approval is required"] []
           (sample_confirmation_part "call-7") (sample_confirmation_call "call-7"));
    try reflexivity.
  - exact sample_skipped_no_request.
  - exact sample_text_no_request.
Defined.
End Scan.


(** * Properties of the workflow driver *)

Section WorkflowProperties.
Context {St : Type}.
Variable create_session : string → string → string → St → option exn * St.
Variable run_async : RunCall → St → (list Event * option exn) * St.

Abbreviation print_event' := (print_event (St := St)).

Lemma print_parts_calls (ps : list Part) (w : World St) :
  calls (print_parts ps w).2 = calls w.
Proof.
  revert w. induction ps as [|part ps IH]; intros w; [done|].
  cbn [print_parts]. unfold bind.
  destruct (truthy_str (text part)); unfold print, ret, ok; cbn beta iota; by rewrite IH.
Qed.

Lemma print_event_calls (event : Event) (w : World St) :
  calls (print_event event w).2 = calls w.
Proof.
  unfold print_event, bind, lift.
  destruct (has_parts event) as [e|[|]]; [done| |done].
  destruct (let? c_parts := _ in _) as [e|ps]; [done|].
  apply print_parts_calls.
Qed.

Lemma for_each_calls (body : Event → M unit) (events : list Event) (w : World St) :
  (∀ event w', calls (body event w').2 = calls w') →
  calls (for_each body events w).2 = calls w.
Proof.
  intros Hbody. revert w. induction events as [|event events IH]; intros w; [done|].
  cbn [for_each]. unfold bind. specialize (Hbody event w).
  destruct (body event w) as [[e|[]] w']; cbn [snd] in *; [done|].
  by rewrite IH.
Qed.

Lemma approval_info_truthy (hit : Event * FunctionCall) :
  truthy_dict (Some (approval_info_of hit)) = true.
Proof.
  unfold truthy_dict. apply bool_decide_eq_true. intros Hempty.
  assert (Hlook : approval_info_of hit !! "invocation_id" = None)
    by (by rewrite Hempty).
  done.
Qed.

Lemma create_approval_response_info (hit : Event * FunctionCall) (approved : bool) :
  create_approval_response (approval_info_of hit) approved
  = ok (approval_response hit.2 approved).
Proof. reflexivity. Qed.

Lemma getitem_invocation_id (hit : Event * FunctionCall) :
  getitem (approval_info_of hit) "invocation_id" = ok (VStr (invocation_id hit.1)).
Proof. reflexivity. Qed.

(** The calls a run makes are the expected ones. *)
Lemma run_image_workflow_calls query auto_approve uuid_hex (w : World St) :
  calls (run_image_workflow create_session run_async query auto_approve uuid_hex w).2
  = (calls w
       ++ workflow_calls create_session run_async query auto_approve uuid_hex (runner w))%list.
Proof.
  unfold workflow_calls.
  cbv [run_image_workflow bind print call_create_session call_run_async reraise lift ret].
  cbn [calls runner stdout fst snd].
  fold (session_id_of uuid_hex). fold (start_call query uuid_hex).
  destruct (create_session _ _ _ _) as [[e|] st0]; cbn [raise ok fst snd calls].
  { by rewrite app_nil_r. }
  destruct (run_async _ _) as [[events [e|]] st1]; cbn [raise ok fst snd calls].
  { done. }
  rewrite check_for_approval_first.
  destruct (head (confirmation_calls events)) as [hit|];
    cbn [fmap option_fmap option_map ok].
  - rewrite approval_info_truthy. cbn beta iota.
    cbn [from_option]. unfold id.
    rewrite create_approval_response_info, getitem_invocation_id.
    cbn [ok calls runner]. fold (resume_call uuid_hex auto_approve hit).
    destruct (run_async _ _) as [[events2 e2] st2]; cbn [ok fst snd].
    match goal with
    | |- context [for_each print_event' events2 ?w0] =>
        pose proof (for_each_calls print_event' events2 w0 print_event_calls) as Hframe;
        destruct (for_each print_event' events2 w0) as [[e|[]] w2]
    end; cbn [fst snd calls] in *; rewrite Hframe.
    + by rewrite <- app_assoc.
    + destruct e2; cbn [raise ok fst snd calls]; rewrite ?Hframe; by rewrite <- app_assoc.
  - cbn [truthy_dict]. unfold print_agent_response.
    match goal with
    | |- context [for_each print_event' events ?w0] =>
        pose proof (for_each_calls print_event' events w0 print_event_calls) as Hframe;
        destruct (for_each print_event' events w0) as [[e|[]] w2]
    end; cbn [fst snd calls] in *; by rewrite Hframe.
Qed.

Lemma resume_calls_start query uuid_hex :
  resume_calls [start_call query uuid_hex] = [].
Proof. reflexivity. Qed.

Lemma resume_calls_start_resume query uuid_hex approved (hit : Event * FunctionCall) :
  resume_calls [start_call query uuid_hex; resume_call uuid_hex approved hit]
  = [resume_call uuid_hex approved hit].
Proof. reflexivity. Qed.

Lemma workflow_calls_resumes query auto_approve uuid_hex (st : St) :
  (length (resume_calls
             (workflow_calls create_session run_async query auto_approve uuid_hex st))
   ≤ 1)%nat.
Proof.
  unfold workflow_calls.
  destruct (create_session _ _ _ _) as [[e|] st0]; [vm_compute; lia|].
  destruct (run_async _ _) as [[events [e|]] st1]; [vm_compute; lia|].
  destruct (head (confirmation_calls events)) as [hit|]; vm_compute; lia.
Qed.

(** C5: in every run of the workflow, at most one call of [run_async]
    resumes an invocation; a resume call is only ever issued with the
    invocation id of the first event of the start call that carries an
    "adk_request_confirmation" function call; and whenever the start call
    ends normally with such an event among those it yielded, exactly one
    resume call follows it, whose [invocation_id] is that event's
    [invocation_id], unchanged, in the same session and answering that
    function call's id with the decision. *)
Theorem resume_passes_captured_invocation_id query auto_approve uuid_hex (w : World St) :
  let out := run_image_workflow create_session run_async query auto_approve uuid_hex w in
  ∃ new : list RunCall,
    calls out.2 = (calls w ++ new)%list
    ∧ (length (resume_calls new) ≤ 1)%nat
    ∧ (∀ c, c ∈ resume_calls new →
         ∃ st0 events st1 hit,
           create_session "image_generation_app" "test_user"
             (session_id_of uuid_hex) (runner w) = (None, st0)
           ∧ run_async (start_call query uuid_hex) st0 = ((events, None), st1)
           ∧ head (confirmation_calls events) = Some hit
           ∧ call_invocation_id c = Some (VStr (invocation_id hit.1)))
    ∧ (∀ st0 events st1 before event after (pre post : list Part) part fc,
         create_session "image_generation_app" "test_user"
           (session_id_of uuid_hex) (runner w) = (None, st0) →
         run_async (start_call query uuid_hex) st0 = ((events, None), st1) →
         events = (before ++ event :: after)%list →
         no_request before →
         parts_of event = (pre ++ part :: post)%list →
         (∀ q, q ∈ pre → ¬ requests_confirmation q) →
         function_call part = Some fc →
         fc_name fc = Some "adk_request_confirmation" →
         ∃ c, new = [start_call query uuid_hex; c]
              ∧ resume_calls new = [c]
              ∧ call_invocation_id c = Some (VStr (invocation_id event))
              ∧ call_session_id c = session_id_of uuid_hex
              ∧ call_new_message c = approval_response fc auto_approve).
Proof.
  intros out. subst out.
  exists (workflow_calls create_session run_async query auto_approve uuid_hex (runner w)).
  split_and!.
  - apply run_image_workflow_calls.
  - apply workflow_calls_resumes.
  - intros c. unfold workflow_calls.
    destruct (create_session _ _ _ _) as [[e|] st0] eqn:Hsession;
      [change (resume_calls []) with (@nil RunCall); by intros ?%elem_of_nil|].
    destruct (run_async _ _) as [[events [e|]] st1] eqn:Hstart;
      [rewrite resume_calls_start; by intros ?%elem_of_nil|].
    destruct (head (confirmation_calls events)) as [hit|] eqn:Hhit;
      [|rewrite resume_calls_start; by intros ?%elem_of_nil].
    rewrite resume_calls_start_resume.
    intros ->%list_elem_of_singleton. by exists st0, events, st1, hit.
  - intros st0 events st1 before event after pre post part fc
      Hsession Hstart -> Hbefore Hparts Hpre Hcall Hname.
    unfold workflow_calls. rewrite Hsession, Hstart.
    rewrite (confirmation_calls_first _ _ _ pre post part fc) by done.
    by eexists.
Qed.

End WorkflowProperties.

Lemma resume_passes_captured_invocation_id_witness :
  ∃ c : RunCall,
    calls (run_image_workflow sample_create_session sample_run_async
             "Generate 10 images, of a cat" true "0123abcd4567ef89" sample_world).2
    = [start_call "Generate 10 images, of a cat" "0123abcd4567ef89"; c]
    ∧ call_invocation_id c = Some (VStr "inv-42")
    ∧ call_session_id c = "order_0123abcd".
Proof.
  destruct (resume_passes_captured_invocation_id sample_create_session sample_run_async
              "Generate 10 images, of a cat" true "0123abcd4567ef89" sample_world)
    as (new & Hcalls & _ & _ & Hresume).
  destruct (Hresume O sample_events 1%nat sample_skipped sample_request [sample_later]
              [sample_text_part "Approval is required"] []
              (sample_confirmation_part "call-7") (sample_confirmation_call "call-7"))
    as (c & Hnew & _ & Hinv & Hsession & _); try reflexivity.
  - exact sample_skipped_no_request.
  - exact sample_text_no_request.
  - exists c. rewrite Hnew in Hcalls. split_and!; [exact Hcalls | exact Hinv | exact Hsession].
Defined.

(** * Properties of the orchestrator *)

Section OrchestratorProperties.
Import Orchestrator.
Variable advance : string → InvocationRecord → bool → InvocationRecord * list LogEvent.

(** C7: [resume] on an invocation id whose record is not suspended fails
    with [NotSuspended] and leaves the store, hence the invocation, as it
    was; [resume] on an unknown invocation id fails with
    [InvocationNotFound]. *)
Theorem resume_requires_suspended (store : gmap string InvocationRecord)
    (id : string) (decision : bool) :
  (∀ record, store !! id = Some record → status record ≠ suspended →
     resume advance store id decision = (inl NotSuspended, store))
  ∧ (store !! id = None →
     resume advance store id decision = (inl InvocationNotFound, store)).
Proof.
  unfold resume. split.
  - intros record -> Hstatus. by rewrite decide_False.
  - by intros ->.
Qed.

End OrchestratorProperties.

Lemma resume_requires_suspended_witness :
  let advance := λ (id : string) (record : Orchestrator.InvocationRecord) (decision : bool),
                   (record, @nil Orchestrator.LogEvent) in
  Orchestrator.resume advance sample_store "inv-done" true
    = (inl Orchestrator.NotSuspended, sample_store)
  ∧ Orchestrator.resume advance sample_store "inv-lost" true
    = (inl Orchestrator.InvocationNotFound, sample_store).
Proof.
  intros advance. split.
  - destruct (resume_requires_suspended advance sample_store "inv-done" true) as [Hns _].
    eapply Hns; [reflexivity | discriminate].
  - destruct (resume_requires_suspended advance sample_store "inv-lost" true) as [_ Hnf].
    apply Hnf. reflexivity.
Defined.

(** * The three demonstration orders, evaluated *)

Example gate_one_image :
  (place_image_generation_order 1 (with_confirmation None
     {| ctx_invocation_id := "inv-0"; function_call_id := "call-0";
        tool_confirmation := None; requested_confirmations := [] |})).1
  = {[ "status" := VStr "approved"; "order_id" := VStr "ORD-1-AUTO";
       "num_images" := VInt 1; "message" := VStr "Order auto-approved: 1 images" ]}.
Proof. vm_compute. reflexivity. Qed.

Example gate_three_images_pending :
  (place_image_generation_order 3
     {| ctx_invocation_id := "inv-0"; function_call_id := "call-0";
        tool_confirmation := None; requested_confirmations := [] |}).1
  = {[ "status" := VStr "pending";
       "message" := VStr "Order for 3 images requires approval" ]}.
Proof. vm_compute. reflexivity. Qed.

Example gate_eight_images_rejected :
  (place_image_generation_order 8
     {| ctx_invocation_id := "inv-3"; function_call_id := "call-3";
        tool_confirmation := Some {| hint := ""; confirmed := false; payload := None |};
        requested_confirmations := [] |}).1
  = {[ "status" := VStr "rejected"; "message" := VStr "Order rejected: 8 images" ]}.
Proof. vm_compute. reflexivity. Qed.

Example sample_run_output :
  stdout (run_image_workflow sample_create_session sample_run_async
            "Generate 10 images, of a cat" true "0123abcd4567ef89" sample_world).2
  = [ newline +:+ str_repeat "=" 60;
      "User > Generate 10 images, of a cat" +:+ newline;
      "⏸️  Pausing for approval...";
      "🤔 Human Decision: APPROVE ✅" +:+ newline;
      "Agent > Order approved";
      str_repeat "=" 60 +:+ newline ].
Proof. vm_compute. reflexivity. Qed.

(** * What the driver prints *)

Section Printing.
Context {St : Type}.
Implicit Types (w : World St) (events : list Event).

Lemma printed_nil w : printed w [] = w.
Proof. destruct w. unfold printed. cbn. by rewrite app_nil_r. Qed.

Lemma printed_app w (l1 l2 : list string) :
  printed (printed w l1) l2 = printed w (l1 ++ l2).
Proof. unfold printed. cbn. by rewrite app_assoc. Qed.

Lemma print_parts_lines (ps : list Part) w :
  print_parts ps w = (ok tt, printed w (omap agent_line ps)).
Proof.
  revert w. induction ps as [|part ps IH]; intros w.
  - cbn. by rewrite printed_nil.
  - cbn [print_parts omap list_omap]. unfold bind, agent_line.
    destruct (text part) as [[|c t]|]; cbn [truthy_str]; unfold print, ret, ok;
      cbn beta iota; rewrite IH; try done.
    unfold printed. cbn. by rewrite <- app_assoc.
Qed.

Lemma print_event_lines (event : Event) w :
  print_event event w = (ok tt, printed w (omap agent_line (parts_of event))).
Proof.
  unfold print_event, bind, lift, has_parts, parts_of.
  destruct (content event) as [c|]; cbn [truthy_obj getattr rbind ok];
    [|by rewrite printed_nil].
  destruct (parts c) as [[|p ps]|];
    cbn [truthy_list iterate rbind ok from_option omap list_omap];
    try by rewrite printed_nil.
  apply print_parts_lines.
Qed.

Lemma for_each_print_event events w :
  for_each print_event events w = (ok tt, printed w (agent_lines events)).
Proof.
  revert w. induction events as [|event events IH]; intros w.
  - cbn. by rewrite printed_nil.
  - cbn [for_each]. unfold bind. rewrite print_event_lines. cbn beta iota.
    rewrite IH. unfold agent_lines. cbn [flat_map]. by rewrite printed_app.
Qed.

(** X1: [print_agent_response] never raises, leaves the framework state and
    the recorded calls alone, and prints exactly one line "Agent > <text>"
    for every part with a non-empty text, in event and part order; events
    without content or parts and parts without text print nothing. *)
Theorem print_agent_response_prints_texts events w :
  print_agent_response events w
  = (ok tt, {| runner := runner w; calls := calls w;
               stdout := (stdout w ++ agent_lines events)%list |})
  ∧ (∀ line, line ∈ agent_lines events ↔
       ∃ event part c t, event ∈ events ∧ part ∈ parts_of event
                         ∧ text part = Some (String c t)
                         ∧ line = "Agent > " +:+ String c t).
Proof.
  split; [apply for_each_print_event|].
  intros line. unfold agent_lines. rewrite list_elem_of_In, in_flat_map. split.
  - intros (event & Hevent & Hline).
    apply list_elem_of_In, list_elem_of_omap in Hline as (part & Hpart & Hline).
    unfold agent_line in Hline.
    destruct (text part) as [[|c t]|] eqn:Htext; simplify_eq.
    exists event, part, c, t. by rewrite list_elem_of_In.
  - intros (event & part & c & t & Hevent & Hpart & Htext & ->).
    exists event. split; [by apply list_elem_of_In|].
    apply list_elem_of_In, list_elem_of_omap. exists part.
    split; [done|]. unfold agent_line. by rewrite Htext.
Qed.
End Printing.

(** * The outcome of a run *)

Section Outcome.
Context {St : Type}.
Variable create_session : string → string → string → St → option exn * St.
Variable run_async : RunCall → St → (list Event * option exn) * St.

Lemma run_image_workflow_outcome query auto_approve uuid_hex (w : World St) :
  run_image_workflow create_session run_async query auto_approve uuid_hex w
  = workflow_outcome create_session run_async query auto_approve uuid_hex w.
Proof.
  unfold workflow_outcome.
  cbv [run_image_workflow bind print call_create_session call_run_async reraise lift ret].
  cbn [calls runner stdout fst snd].
  fold (session_id_of uuid_hex). fold (start_call query uuid_hex).
  fold banner_open banner_close (user_line query) pausing_line (decision_line auto_approve).
  destruct (create_session _ _ _ _) as [[e|] st0]; cbn [raise ok fst snd calls].
  { by rewrite <- app_assoc. }
  destruct (run_async _ _) as [[events [e|]] st1]; cbn [raise ok fst snd calls].
  { by rewrite <- app_assoc. }
  rewrite check_for_approval_first.
  destruct (head (confirmation_calls events)) as [hit|];
    cbn [fmap option_fmap option_map ok].
  - rewrite approval_info_truthy. cbn beta iota.
    cbn [from_option]. unfold id.
    rewrite create_approval_response_info, getitem_invocation_id.
    cbn [ok calls runner stdout]. fold (resume_call uuid_hex auto_approve hit).
    destruct (run_async _ _) as [[events2 e2] st2]; cbn [ok fst snd].
    rewrite for_each_print_event. unfold printed. cbn [runner calls stdout].
    destruct e2 as [e|]; cbn [raise ok runner calls stdout];
      rewrite <- ?app_assoc; cbn [app]; rewrite ?app_nil_r; reflexivity.
  - cbn [truthy_dict]. unfold print_agent_response.
    rewrite for_each_print_event. unfold printed. cbn [runner calls stdout].
    rewrite <- ?app_assoc; cbn [app]; reflexivity.
Qed.

(** X2: when the session is created, the start call ends normally and none
    of its events carries a confirmation request, the run returns normally
    after that single call of [run_async]; it prints the opening banner,
    the query, one line per non-empty text of the collected events, and
    the closing banner. *)
Theorem workflow_without_request query auto_approve uuid_hex (w : World St)
    st0 events st1 :
  create_session "image_generation_app" "test_user"
    (session_id_of uuid_hex) (runner w) = (None, st0) →
  run_async (start_call query uuid_hex) st0 = ((events, None), st1) →
  no_request events →
  run_image_workflow create_session run_async query auto_approve uuid_hex w
  = (ok tt,
     {| runner := st1;
        calls := (calls w ++ [start_call query uuid_hex])%list;
        stdout := (stdout w ++ [banner_open; user_line query]
                     ++ agent_lines events ++ [banner_close])%list |}).
Proof.
  intros Hsession Hstart Hno. rewrite run_image_workflow_outcome.
  unfold workflow_outcome. rewrite Hsession, Hstart.
  by rewrite confirmation_calls_none.
Qed.

(** X3: when the start call ends normally with a confirmation request
    among its events and the resume call ends normally, the run returns
    normally after exactly these two calls; it prints the opening banner,
    the query, the pause and decision lines, the texts of the events of the
    resume call, and the closing banner.  The texts of the events collected
    before the pause are not printed. *)
Theorem workflow_with_request query auto_approve uuid_hex (w : World St)
    st0 events st1 hit events2 st2 :
  create_session "image_generation_app" "test_user"
    (session_id_of uuid_hex) (runner w) = (None, st0) →
  run_async (start_call query uuid_hex) st0 = ((events, None), st1) →
  head (confirmation_calls events) = Some hit →
  run_async (resume_call uuid_hex auto_approve hit) st1 = ((events2, None), st2) →
  run_image_workflow create_session run_async query auto_approve uuid_hex w
  = (ok tt,
     {| runner := st2;
        calls := (calls w ++ [start_call query uuid_hex;
                              resume_call uuid_hex auto_approve hit])%list;
        stdout := (stdout w ++ [banner_open; user_line query;
                                pausing_line; decision_line auto_approve]
                     ++ agent_lines events2 ++ [banner_close])%list |}).
Proof.
  intros Hsession Hstart Hhit Hresume. rewrite run_image_workflow_outcome.
  unfold workflow_outcome. rewrite Hsession, Hstart, Hhit. cbn zeta.
  by rewrite Hresume.
Qed.

(** X4: when the session cannot be created, the run raises that exception
    right after printing the opening banner and the query: [run_async] is
    never called and the closing banner is not printed. *)
Theorem workflow_session_failure query auto_approve uuid_hex (w : World St) e st0 :
  create_session "image_generation_app" "test_user"
    (session_id_of uuid_hex) (runner w) = (Some e, st0) →
  run_image_workflow create_session run_async query auto_approve uuid_hex w
  = (raise e,
     {| runner := st0; calls := calls w;
        stdout := (stdout w ++ [banner_open; user_line query])%list |}).
Proof.
  intros Hsession. rewrite run_image_workflow_outcome.
  unfold workflow_outcome. by rewrite Hsession.
Qed.

(** X5: when the start call raises, the run raises that exception without
    looking at the events the call had yielded: even if one of them carries
    a confirmation request no resume call is made, none of their texts is
    printed, and the closing banner is not printed. *)
Theorem workflow_start_failure query auto_approve uuid_hex (w : World St)
    st0 events e st1 :
  create_session "image_generation_app" "test_user"
    (session_id_of uuid_hex) (runner w) = (None, st0) →
  run_async (start_call query uuid_hex) st0 = ((events, Some e), st1) →
  run_image_workflow create_session run_async query auto_approve uuid_hex w
  = (raise e,
     {| runner := st1;
        calls := (calls w ++ [start_call query uuid_hex])%list;
        stdout := (stdout w ++ [banner_open; user_line query])%list |}).
Proof.
  intros Hsession Hstart. rewrite run_image_workflow_outcome.
  unfold workflow_outcome. by rewrite Hsession, Hstart.
Qed.

(** X6: when the resume call raises after yielding some events, the run
    raises that exception after printing the texts of those events; the
    closing banner is not printed. *)
Theorem workflow_resume_failure query auto_approve uuid_hex (w : World St)
    st0 events st1 hit events2 e st2 :
  create_session "image_generation_app" "test_user"
    (session_id_of uuid_hex) (runner w) = (None, st0) →
  run_async (start_call query uuid_hex) st0 = ((events, None), st1) →
  head (confirmation_calls events) = Some hit →
  run_async (resume_call uuid_hex auto_approve hit) st1 = ((events2, Some e), st2) →
  run_image_workflow create_session run_async query auto_approve uuid_hex w
  = (raise e,
     {| runner := st2;
        calls := (calls w ++ [start_call query uuid_hex;
                              resume_call uuid_hex auto_approve hit])%list;
        stdout := (stdout w ++ [banner_open; user_line query;
                                pausing_line; decision_line auto_approve]
                     ++ agent_lines events2)%list |}).
Proof.
  intros Hsession Hstart Hhit Hresume. rewrite run_image_workflow_outcome.
  unfold workflow_outcome. rewrite Hsession, Hstart, Hhit. cbn zeta.
  rewrite Hresume. by rewrite app_nil_r.
Qed.

(** X7: the driver raises nothing of its own: whenever a run raises, the
    exception is one that [create_session] or a call of [run_async]
    raised in that run. *)
Theorem workflow_raises_only_framework_errors query auto_approve uuid_hex
    (w : World St) e :
  (run_image_workflow create_session run_async query auto_approve uuid_hex w).1
    = raise e →
  (create_session "image_generation_app" "test_user"
     (session_id_of uuid_hex) (runner w)).1 = Some e
  ∨ ∃ c st, (run_async c st).1.2 = Some e
            ∧ call_session_id c = session_id_of uuid_hex.
Proof.
  rewrite run_image_workflow_outcome. unfold workflow_outcome.
  destruct (create_session _ _ _ _) as [[e0|] st0] eqn:Hsession; cbn [fst].
  { intros [= ->]. by left. }
  destruct (run_async _ st0) as [[events [e1|]] st1] eqn:Hstart; cbn [fst].
  { intros [= ->]. right. exists (start_call query uuid_hex), st0. by rewrite Hstart. }
  destruct (head (confirmation_calls events)) as [hit|]; cbn [fst]; [|done].
  cbn zeta.
  destruct (run_async _ st1) as [[events2 [e2|]] st2] eqn:Hresume; cbn [fst]; [|done].
  intros [= ->]. right.
  exists (resume_call uuid_hex auto_approve hit), st1. by rewrite Hresume.
Qed.
End Outcome.

Lemma quiet_events_no_request :
  no_request (quiet_run_async (start_call "Generate 1 image" "89abcdef01234567") O).1.1.
Proof.
  intros event part ->%list_elem_of_singleton Hpart [fc [Hcall _]].
  cbn in Hpart.
  repeat (apply elem_of_cons in Hpart as [-> | Hpart]); try done.
  by apply elem_of_nil in Hpart.
Qed.

Lemma workflow_without_request_witness :
  run_image_workflow sample_create_session quiet_run_async
    "Generate 1 image" true "89abcdef01234567" sample_world
  = (ok tt,
     {| runner := 1%nat;
        calls := [start_call "Generate 1 image" "89abcdef01234567"];
        stdout := [banner_open; user_line "Generate 1 image";
                   "Agent > Order auto-approved"; banner_close] |}).
Proof.
  apply (workflow_without_request sample_create_session quiet_run_async
           "Generate 1 image" true "89abcdef01234567" sample_world O
           (quiet_run_async (start_call "Generate 1 image" "89abcdef01234567") O).1.1
           1%nat);
    [reflexivity | reflexivity | exact quiet_events_no_request].
Defined.

Lemma workflow_with_request_witness :
  run_image_workflow sample_create_session sample_run_async
    "Generate 10 images, of a cat" true "0123abcd4567ef89" sample_world
  = (ok tt,
     {| runner := 2%nat;
        calls := [start_call "Generate 10 images, of a cat" "0123abcd4567ef89";
                  resume_call "0123abcd4567ef89" true
                    (sample_request, sample_confirmation_call "call-7")];
        stdout := [banner_open; user_line "Generate 10 images, of a cat";
                   pausing_line; decision_line true;
                   "Agent > Order approved"; banner_close] |}).
Proof.
  apply (workflow_with_request sample_create_session sample_run_async
           "Generate 10 images, of a cat" true "0123abcd4567ef89" sample_world
           O sample_events 1%nat (sample_request, sample_confirmation_call "call-7")
           (sample_run_async
              (resume_call "0123abcd4567ef89" true
                 (sample_request, sample_confirmation_call "call-7")) 1%nat).1.1
           2%nat); reflexivity.
Defined.

Lemma workflow_session_failure_witness :
  run_image_workflow failing_create_session sample_run_async
    "Generate 10 images, of a cat" true "0123abcd4567ef89" sample_world
  = (raise (FrameworkError "session exists"),
     {| runner := O; calls := [];
        stdout := [banner_open; user_line "Generate 10 images, of a cat"] |}).
Proof.
  apply (workflow_session_failure failing_create_session sample_run_async
           "Generate 10 images, of a cat" true "0123abcd4567ef89" sample_world
           (FrameworkError "session exists") O).
  reflexivity.
Defined.

Lemma workflow_start_failure_witness :
  run_image_workflow sample_create_session failing_start
    "Generate 10 images, of a cat" true "0123abcd4567ef89" sample_world
  = (raise (FrameworkError "model unavailable"),
     {| runner := 1%nat;
        calls := [start_call "Generate 10 images, of a cat" "0123abcd4567ef89"];
        stdout := [banner_open; user_line "Generate 10 images, of a cat"] |}).
Proof.
  apply (workflow_start_failure sample_create_session failing_start
           "Generate 10 images, of a cat" true "0123abcd4567ef89" sample_world
           O sample_events (FrameworkError "model unavailable") 1%nat); reflexivity.
Defined.

Lemma workflow_resume_failure_witness :
  run_image_workflow sample_create_session failing_resume
    "Generate 8 images, of a cat" false "0123abcd4567ef89" sample_world
  = (raise (FrameworkError "model unavailable"),
     {| runner := 2%nat;
        calls := [start_call "Generate 8 images, of a cat" "0123abcd4567ef89";
                  resume_call "0123abcd4567ef89" false
                    (sample_request, sample_confirmation_call "call-7")];
        stdout := [banner_open; user_line "Generate 8 images, of a cat";
                   pausing_line; decision_line false;
                   "Agent > Placing order"] |}).
Proof.
  apply (workflow_resume_failure sample_create_session failing_resume
           "Generate 8 images, of a cat" false "0123abcd4567ef89" sample_world
           O sample_events 1%nat (sample_request, sample_confirmation_call "call-7")
           (failing_resume
              (resume_call "0123abcd4567ef89" false
                 (sample_request, sample_confirmation_call "call-7")) 1%nat).1.1
           (FrameworkError "model unavailable") 2%nat); reflexivity.
Defined.

Lemma workflow_raises_only_framework_errors_witness :
  (failing_create_session "image_generation_app" "test_user"
     (session_id_of "0123abcd4567ef89") O).1
    = Some (FrameworkError "session exists")
  ∨ ∃ c st, (sample_run_async c st).1.2 = Some (FrameworkError "session exists")
            ∧ call_session_id c = session_id_of "0123abcd4567ef89".
Proof.
  apply (workflow_raises_only_framework_errors failing_create_session sample_run_async
           "Generate 10 images, of a cat" true "0123abcd4567ef89" sample_world
           (FrameworkError "session exists")).
  reflexivity.
Defined.

(** * More on the confirmation gate *)

Section GateTable.
Implicit Types (num_images : Z) (tool_context : ToolContext) (s t : string).

Lemma string_length_app s t :
  String.length (s +:+ t) = (String.length s + String.length t)%nat.
Proof. induction s as [|c s IH]; simpl; [done | by f_equal]. Qed.

Lemma string_app_inj_r s1 s2 t : s1 +:+ t = s2 +:+ t → s1 = s2.
Proof.
  revert s2. induction s1 as [|c s1 IH]; intros [|d s2] Heq; [done| | |].
  - apply (f_equal String.length) in Heq.
    rewrite !string_length_app in Heq. simpl in Heq. lia.
  - apply (f_equal String.length) in Heq.
    rewrite !string_length_app in Heq. simpl in Heq. lia.
  - simpl in Heq. injection Heq as -> Heq. f_equal. by apply IH.
Qed.

Lemma last_char_app s t : t ≠ "" → last_char (s +:+ t) = last_char t.
Proof.
  intros Ht. induction s as [|c s IH]; [done|].
  change (last_char (String c (s +:+ t)) = last_char t).
  destruct (s +:+ t) as [|d u] eqn:Hst.
  - destruct s; simpl in Hst; [by subst | discriminate].
  - by rewrite <- IH.
Qed.

Lemma auto_id_not_human n m :
  "ORD-" +:+ str_of_int n +:+ "-AUTO" ≠ "ORD-" +:+ str_of_int m +:+ "-HUMAN".
Proof.
  assert (Hlast : ∀ k suffix, suffix ≠ "" →
            last_char ("ORD-" +:+ str_of_int k +:+ suffix) = last_char suffix).
  { intros k suffix Hs. rewrite last_char_app; [by apply last_char_app|].
    destruct (str_of_int k); [by destruct suffix | done]. }
  intros Heq. apply (f_equal last_char) in Heq.
  rewrite !Hlast in Heq by done. done.
Qed.

Lemma order_id_inj (suffix : string) n m :
  "ORD-" +:+ str_of_int n +:+ suffix = "ORD-" +:+ str_of_int m +:+ suffix → n = m.
Proof.
  intros Heq. apply (inj (String.append "ORD-")) in Heq.
  apply string_app_inj_r in Heq. by apply (inj pretty) in Heq.
Qed.

Lemma VStr_inj s t : VStr s = VStr t → s = t.
Proof. congruence. Qed.

(** The results that carry an order id. *)
Lemma gate_order_id_cases num_images tool_context v :
  (place_image_generation_order num_images tool_context).1 !! "order_id" = Some v →
  (v = VStr ("ORD-" +:+ str_of_int num_images +:+ "-AUTO")
   ∧ (place_image_generation_order num_images tool_context).1
     = {[ "status" := VStr "approved";
          "order_id" := VStr ("ORD-" +:+ str_of_int num_images +:+ "-AUTO");
          "num_images" := VInt num_images;
          "message" := VStr ("Order auto-approved: " +:+ str_of_int num_images
                               +:+ " images") ]})
  ∨ (v = VStr ("ORD-" +:+ str_of_int num_images +:+ "-HUMAN")
     ∧ (place_image_generation_order num_images tool_context).1
       = {[ "status" := VStr "approved";
            "order_id" := VStr ("ORD-" +:+ str_of_int num_images +:+ "-HUMAN");
            "num_images" := VInt num_images;
            "message" := VStr ("Order approved: " +:+ str_of_int num_images
                                 +:+ " images") ]}).
Proof.
  destruct (decide (num_images ≤ LARGE_ORDER_THRESHOLD)) as [Hle|Hgt].
  - rewrite gate_auto by done. cbn [fst]. intros [= <-]. by left.
  - destruct (tool_confirmation tool_context) as [tc|] eqn:Htc.
    + rewrite (gate_resumed _ _ tc) by (done || lia).
      destruct (confirmed tc); cbn [fst]; [|done]. intros [= <-]. by right.
    + by rewrite gate_first by (done || lia).
Qed.

(** The four cases of the gate, with what each does to the context. *)
Lemma gate_status_cases num_images tool_context :
  let out := place_image_generation_order num_images tool_context in
  (num_images ≤ LARGE_ORDER_THRESHOLD
   ∧ out.1 !! "status" = Some (VStr "approved") ∧ out.2 = tool_context)
  ∨ (LARGE_ORDER_THRESHOLD < num_images
     ∧ confirmation_state tool_context = None
     ∧ out.1 !! "status" = Some (VStr "pending") ∧ out.2 ≠ tool_context)
  ∨ (LARGE_ORDER_THRESHOLD < num_images
     ∧ confirmation_state tool_context = Some true
     ∧ out.1 !! "status" = Some (VStr "approved") ∧ out.2 = tool_context)
  ∨ (LARGE_ORDER_THRESHOLD < num_images
     ∧ confirmation_state tool_context = Some false
     ∧ out.1 !! "status" = Some (VStr "rejected") ∧ out.2 = tool_context).
Proof.
  intros out. subst out. unfold confirmation_state.
  destruct (decide (num_images ≤ LARGE_ORDER_THRESHOLD)) as [Hle|Hgt].
  - left. by rewrite gate_auto.
  - right. destruct (tool_confirmation tool_context) as [tc|] eqn:Htc.
    + right. rewrite (gate_resumed _ _ tc) by (done || lia).
      cbn [fmap option_fmap option_map].
      destruct (confirmed tc); [left | right]; (split; [lia | done]).
    + left. rewrite gate_first by (done || lia).
      split; [lia|]. split; [done|]. split; [done|].
      cbn [snd]. intros Heq. apply (f_equal requested_confirmations) in Heq.
      cbn in Heq. apply (f_equal length) in Heq.
      rewrite length_app in Heq. cbn in Heq. lia.
Qed.

(** X8: the status of the gate's result is decided by the threshold and
    the confirmation state alone.  It is "approved" exactly when
    [num_images] is at most the threshold (zero and negative counts
    included) or the ticket is confirmed as true; "pending" exactly when
    [num_images] is above the threshold and there is no ticket; "rejected"
    exactly when [num_images] is above the threshold and the ticket is
    confirmed as false.  The context is returned unchanged exactly when the
    status is not "pending". *)
Theorem gate_status_table num_images tool_context :
  let out := place_image_generation_order num_images tool_context in
  (out.1 !! "status" = Some (VStr "approved")
   ↔ num_images ≤ LARGE_ORDER_THRESHOLD
     ∨ confirmation_state tool_context = Some true)
  ∧ (out.1 !! "status" = Some (VStr "pending")
     ↔ LARGE_ORDER_THRESHOLD < num_images
       ∧ confirmation_state tool_context = None)
  ∧ (out.1 !! "status" = Some (VStr "rejected")
     ↔ LARGE_ORDER_THRESHOLD < num_images
       ∧ confirmation_state tool_context = Some false)
  ∧ (out.2 = tool_context ↔ out.1 !! "status" ≠ Some (VStr "pending")).
Proof.
  intros out. subst out.
  destruct (gate_status_cases num_images tool_context)
    as [(Hn & Hs & Hc) | [(Hn & Ht & Hs & Hc) | [(Hn & Ht & Hs & Hc) | (Hn & Ht & Hs & Hc)]]];
    rewrite Hs; try rewrite Hc; try rewrite Ht;
    split_and!; split; intros; destruct_or?; destruct_and?;
      try done; try lia; try (by left); try (by right); try (split; [lia | done]).
Qed.

(** X9: an order id determines the order: two results of the gate that
    carry the same [order_id] were produced for the same [num_images] and
    are equal dictionaries.  (An auto-approved order and an order approved
    by a person never share an id.) *)
Theorem order_id_determines_result n1 n2 (c1 c2 : ToolContext) v :
  (place_image_generation_order n1 c1).1 !! "order_id" = Some v →
  (place_image_generation_order n2 c2).1 !! "order_id" = Some v →
  n1 = n2
  ∧ (place_image_generation_order n1 c1).1 = (place_image_generation_order n2 c2).1.
Proof.
  intros H1 H2.
  apply gate_order_id_cases in H1 as [[-> E1] | [-> E1]];
    apply gate_order_id_cases in H2 as [[H2 E2] | [H2 E2]];
    apply VStr_inj in H2.
  - apply order_id_inj in H2 as ->. split; [done | congruence].
  - by apply auto_id_not_human in H2.
  - symmetry in H2. by apply auto_id_not_human in H2.
  - apply order_id_inj in H2 as ->. split; [done | congruence].
Qed.

Lemma order_id_determines_result_witness :
  let c1 := {| ctx_invocation_id := "inv-a"; function_call_id := "call-a";
               tool_confirmation := Some {| hint := ""; confirmed := true;
                                            payload := None |};
               requested_confirmations := [] |} in
  let c2 := {| ctx_invocation_id := "inv-b"; function_call_id := "call-b";
               tool_confirmation := Some {| hint := "later"; confirmed := true;
                                            payload := None |};
               requested_confirmations := [] |} in
  10 = 10
  ∧ (place_image_generation_order 10 c1).1 = (place_image_generation_order 10 c2).1.
Proof.
  intros c1 c2.
  apply (order_id_determines_result 10 10 c1 c2 (VStr "ORD-10-HUMAN")); reflexivity.
Defined.
End GateTable.

(** * More on the event scan and the approval response *)

Section ScanMore.
Implicit Types (event : Event) (events : list Event) (d : dict).

Lemma confirmation_calls_app (a b : list Event) :
  confirmation_calls (a ++ b) = (confirmation_calls a ++ confirmation_calls b)%list.
Proof. unfold confirmation_calls. apply flat_map_app. Qed.

(** X10: the scan reads its events front to back and stops at the first
    request: once a list of events yields a request, events appended to it
    do not change the answer; and a list that yields none leaves the answer
    to the events appended. *)
Theorem check_for_approval_app (a b : list Event) :
  (∀ d, check_for_approval a = ok (Some d) →
        check_for_approval (a ++ b) = ok (Some d))
  ∧ (check_for_approval a = ok None →
     check_for_approval (a ++ b) = check_for_approval b).
Proof.
  rewrite !check_for_approval_first, confirmation_calls_app.
  destruct (confirmation_calls a) as [|hit hits]; cbn [app head fmap option_fmap option_map].
  - split; [by intros d [=] | done].
  - split; [done | by intros [=]].
Qed.

Lemma check_for_approval_app_witness :
  check_for_approval (sample_events ++ [sample_later])
  = ok (Some {[ "approval_id" := VStr "call-7"; "invocation_id" := VStr "inv-42" ]}).
Proof.
  destruct (check_for_approval_app sample_events [sample_later]) as [Hfound _].
  apply Hfound. reflexivity.
Defined.

Lemma create_approval_response_ok d approved msg :
  create_approval_response d approved = ok msg →
  ∃ v, d !! "approval_id" = Some v
       ∧ msg = {| role := Some "user";
                  parts := Some [ {| text := None; function_call := None;
                                     function_response :=
                                       Some {| fr_id := v;
                                               fr_name := "adk_request_confirmation";
                                               fr_response :=
                                                 {[ "confirmed" := VBool approved ]} |} |} ] |}.
Proof.
  unfold create_approval_response, getitem.
  destruct (d !! "approval_id") as [v|]; cbn [rbind ok raise]; [|done].
  intros [= <-]. by exists v.
Qed.

(** X11: the message built by [create_approval_response] is never taken
    for a confirmation request: an event carrying it, placed anywhere in a
    list of events, does not change what [check_for_approval] returns. *)
Theorem approval_response_is_no_request d approved msg (id who : string)
    (before after : list Event) :
  create_approval_response d approved = ok msg →
  check_for_approval
    (before ++ {| invocation_id := id; author := who; content := Some msg |} :: after)
  = check_for_approval (before ++ after).
Proof.
  intros (v & _ & ->)%create_approval_response_ok.
  rewrite !check_for_approval_first.
  rewrite (confirmation_calls_app before (_ :: after)).
  rewrite (confirmation_calls_app before after).
  done.
Qed.

Lemma approval_response_is_no_request_witness :
  check_for_approval
    (sample_skipped
       ++ {| invocation_id := "inv-42"; author := "user";
             content := Some (approval_response (sample_confirmation_call "call-7") true) |}
       :: [sample_later])
  = check_for_approval (sample_skipped ++ [sample_later]).
Proof.
  apply (approval_response_is_no_request
           {[ "approval_id" := VStr "call-7"; "invocation_id" := VStr "inv-42" ]} true).
  reflexivity.
Defined.

(** X12: what [check_for_approval] returns is always enough to answer the
    request: for every dictionary it returns, [create_approval_response]
    raises nothing and builds a one-part user message whose function
    response is named "adk_request_confirmation", carries the returned
    "approval_id" as its id and the decision under "confirmed"; and the
    "invocation_id" entry is the invocation id of one of the events. *)
Theorem approval_info_answers_request events d approved :
  check_for_approval events = ok (Some d) →
  ∃ v inv,
    d !! "approval_id" = Some v
    ∧ create_approval_response d approved
      = ok {| role := Some "user";
              parts := Some [ {| text := None; function_call := None;
                                 function_response :=
                                   Some {| fr_id := v;
                                           fr_name := "adk_request_confirmation";
                                           fr_response :=
                                             {[ "confirmed" := VBool approved ]} |} |} ] |}
    ∧ getitem d "invocation_id" = ok (VStr inv)
    ∧ ∃ event, event ∈ events ∧ invocation_id event = inv.
Proof.
  rewrite check_for_approval_first.
  destruct (head (confirmation_calls events)) as [hit|] eqn:Hhead; [|done].
  cbn [fmap option_fmap option_map ok]. intros [= <-].
  exists (value_of_opt_str (fc_id hit.2)), (invocation_id hit.1).
  split_and!; [done..|].
  exists hit.1. split; [|done].
  apply head_Some in Hhead as [hits Hhits].
  assert (Hin : hit ∈ confirmation_calls events) by (rewrite Hhits; left).
  unfold confirmation_calls in Hin.
  apply list_elem_of_In, in_flat_map in Hin as (event & Hevent & Hin).
  apply list_elem_of_In, list_elem_of_fmap in Hin as (fc & -> & _).
  by apply list_elem_of_In.
Qed.

Lemma approval_info_answers_request_witness :
  ∃ v inv,
    ({[ "approval_id" := VStr "call-7"; "invocation_id" := VStr "inv-42" ]} : dict)
      !! "approval_id" = Some v
    ∧ create_approval_response
        {[ "approval_id" := VStr "call-7"; "invocation_id" := VStr "inv-42" ]} false
      = ok {| role := Some "user";
              parts := Some [ {| text := None; function_call := None;
                                 function_response :=
                                   Some {| fr_id := v;
                                           fr_name := "adk_request_confirmation";
                                           fr_response :=
                                             {[ "confirmed" := VBool false ]} |} |} ] |}
    ∧ getitem {[ "approval_id" := VStr "call-7"; "invocation_id" := VStr "inv-42" ]}
        "invocation_id" = ok (VStr inv)
    ∧ ∃ event, event ∈ sample_events ∧ invocation_id event = inv.
Proof.
  apply (approval_info_answers_request sample_events). reflexivity.
Defined.

(** X13: [create_approval_response] reads only the "approval_id" entry:
    without it the call raises KeyError("approval_id"), also when
    "invocation_id" is present; with it the call succeeds, also when
    "invocation_id" is missing; and two dictionaries that agree on
    "approval_id" give the same result. *)
Theorem create_approval_response_reads_approval_id d approved :
  (d !! "approval_id" = None →
   create_approval_response d approved = raise (KeyError "approval_id"))
  ∧ (is_Some (d !! "approval_id") →
     ∃ msg, create_approval_response d approved = ok msg)
  ∧ (∀ d' : dict, d' !! "approval_id" = d !! "approval_id" →
       create_approval_response d' approved = create_approval_response d approved).
Proof.
  unfold create_approval_response, getitem. split_and!.
  - by intros ->.
  - intros [v ->]. by eexists.
  - by intros d' ->.
Qed.

Lemma create_approval_response_reads_approval_id_witness :
  create_approval_response {[ "invocation_id" := VStr "inv-42" ]} true
    = raise (KeyError "approval_id")
  ∧ ∃ msg, create_approval_response {[ "approval_id" := VNone ]} true = ok msg.
Proof.
  split.
  - destruct (create_approval_response_reads_approval_id
                {[ "invocation_id" := VStr "inv-42" ]} true) as (Hmissing & _).
    apply Hmissing. reflexivity.
  - destruct (create_approval_response_reads_approval_id
                {[ "approval_id" := VNone ]} true) as (_ & Hpresent & _).
    apply Hpresent. by eexists.
Defined.
End ScanMore.

(** * Sessions, the closing banner and the demonstration runs *)

Section Runs.
Context {St : Type}.
Variable create_session : string → string → string → St → option exn * St.
Variable run_async : RunCall → St → (list Event * option exn) * St.

Lemma substring_prefix_length (n : nat) (s : string) :
  String.length (String.substring 0 n s) = (n `min` String.length s)%nat.
Proof.
  revert s. induction n as [|n IH]; intros [|c s]; simpl; try done.
  by rewrite IH.
Qed.

Lemma substring_prefix_app (a b : string) :
  String.substring 0 (String.length a) (a +:+ b) = a.
Proof.
  induction a as [|c a IH]; simpl.
  - by destruct b.
  - by rewrite IH.
Qed.

(** X14: the session id of a run is "order_" followed by the first eight
    characters of the random suffix, or by all of it when it is shorter:
    it has at most 14 characters, and two suffixes that agree on their
    first eight characters name the same session. *)
Theorem session_id_keeps_eight_characters (uuid_hex : string) :
  String.length (session_id_of uuid_hex) = (6 + 8 `min` String.length uuid_hex)%nat
  ∧ (∀ a b : string, String.length a = 8%nat →
       session_id_of (a +:+ b) = "order_" +:+ a)
  ∧ (∀ query auto_approve (w : World St),
       ∃ new,
         calls (run_image_workflow create_session run_async query auto_approve
                  uuid_hex w).2 = (calls w ++ new)%list
         ∧ ∀ c, c ∈ new → call_session_id c = session_id_of uuid_hex).
Proof.
  split_and!.
  - unfold session_id_of. rewrite string_length_app, substring_prefix_length. done.
  - intros a b Hlen. unfold session_id_of. by rewrite <- Hlen, substring_prefix_app.
  - intros query auto_approve w. eexists. split; [apply run_image_workflow_calls|].
    intros c. unfold workflow_calls.
    destruct (create_session _ _ _ _) as [[e|] st0]; [by intros ?%elem_of_nil|].
    destruct (run_async _ _) as [[events [e|]] st1];
      [by intros ->%list_elem_of_singleton|].
    destruct (head (confirmation_calls events)) as [hit|];
      [|by intros ->%list_elem_of_singleton].
    intros [-> | ->%list_elem_of_singleton]%elem_of_cons; done.
Qed.



End Runs.

Lemma session_id_keeps_eight_characters_witness :
  session_id_of ("0123abcd" +:+ "4567ef89") = "order_0123abcd".
Proof.
  destruct (session_id_keeps_eight_characters sample_create_session sample_run_async
              "0123abcd4567ef89") as (_ & Hprefix & _).
  apply (Hprefix "0123abcd" "4567ef89"). reflexivity.
Defined.


(** * The closing banner *)

Section Banner.
Context {St : Type}.
Variable create_session : string → string → string → St → option exn * St.
Variable run_async : RunCall → St → (list Event * option exn) * St.

Lemma agent_line_not_banner (line : string) (events : list Event) :
  line ∈ agent_lines events → line ≠ banner_close.
Proof.
  unfold agent_lines. rewrite list_elem_of_In, in_flat_map.
  intros (event & _ & Hline).
  apply list_elem_of_In, list_elem_of_omap in Hline as (part & _ & Hline).
  unfold agent_line in Hline.
  destruct (text part) as [[|c t]|]; simplify_eq. done.
Qed.

Lemma last_agent_lines_not_banner (before : list string) (events : list Event) :
  last before ≠ Some banner_close →
  last (before ++ agent_lines events) ≠ Some banner_close.
Proof.
  intros Hbefore.
  destruct (agent_lines events) as [|l ls] eqn:Hlines using rev_ind.
  - by rewrite app_nil_r.
  - rewrite app_assoc, last_snoc. intros [= Hl].
    apply (agent_line_not_banner l events); [|done].
    rewrite Hlines. apply elem_of_app. right. left.
Qed.

(** X16: the closing banner tells a normal return from a failure: the last
    line a run has printed is the closing banner exactly when the run
    returned normally; a run that raises stops before printing it. *)
Theorem closing_banner_marks_normal_return query auto_approve uuid_hex (w : World St) :
  let out := run_image_workflow create_session run_async query auto_approve
               uuid_hex w in
  out.1 = ok tt ↔ last (stdout out.2) = Some banner_close.
Proof.
  intros out. subst out. rewrite run_image_workflow_outcome.
  unfold workflow_outcome. cbv zeta.
  destruct (create_session _ _ _ _) as [[e0|] st0]; cbn [fst snd stdout].
  { rewrite last_app. cbn [last]. split; [done | by intros [=]]. }
  destruct (run_async _ st0) as [[events [e1|]] st1]; cbn [fst snd stdout].
  { rewrite last_app. cbn [last]. split; [done | by intros [=]]. }
  destruct (head (confirmation_calls events)) as [hit|].
  - destruct (run_async _ st1) as [[events2 [e2|]] st2]; cbn [fst snd stdout].
    + split; [done|]. rewrite app_nil_r, !app_assoc.
      intros Hlast. exfalso. revert Hlast.
      apply last_agent_lines_not_banner.
      rewrite last_app. cbn [last]. by intros [=].
    + split; [intros _ | done]. by rewrite !app_assoc, last_snoc.
  - cbn [fst snd stdout]. split; [intros _ | done].
    by rewrite !app_assoc, last_snoc.
Qed.
End Banner.

(** * The counting plugin *)

Section PluginCounts.
Import CountInvocation.
Implicit Types (cb : Callback) (cbs : list Callback) (e : Env).

Lemma run_cons cb cbs e : run (cb :: cbs) e = run cbs (invoke cb e).
Proof. reflexivity. Qed.

Lemma run_snoc cbs cb e : run (cbs ++ [cb]) e = invoke cb (run cbs e).
Proof. unfold run. by rewrite fold_left_app. Qed.

Lemma occurrences_cons cb cb' cbs :
  occurrences cb (cb' :: cbs)
  = (if decide (cb' = cb) then 1 else 0) + occurrences cb cbs.
Proof.
  unfold occurrences. rewrite filter_cons.
  destruct (decide (cb' = cb)); cbn [length]; lia.
Qed.

Lemma counter_invoke cb cb' e :
  counter cb (self (invoke cb' e))
  = counter cb (self e) + (if decide (cb' = cb) then 1 else 0).
Proof. destruct cb, cb'; case_decide; simplify_eq; cbn; lia. Qed.

Lemma run_counter cb cbs e :
  counter cb (self (run cbs e)) = counter cb (self e) + occurrences cb cbs.
Proof.
  revert e. induction cbs as [|cb' cbs IH]; intros e.
  - cbn. unfold occurrences. cbn. lia.
  - rewrite run_cons, IH, counter_invoke, occurrences_cons. lia.
Qed.

Lemma occurrences_total cbs :
  occurrences AgentRun cbs + occurrences ModelRequest cbs + occurrences ToolRequest cbs
  = Z.of_nat (length cbs).
Proof.
  induction cbs as [|cb cbs IH]; [done|].
  rewrite !occurrences_cons. cbn [length].
  destruct cb; repeat case_decide; simplify_eq; lia.
Qed.

Lemma run_lines cbs e :
  name (self (run cbs e)) = name (self e)
  ∧ length (shown (run cbs e)) = (length (shown e) + length cbs)%nat
  ∧ (logged e = shown e → logged (run cbs e) = shown (run cbs e)).
Proof.
  revert e. induction cbs as [|cb cbs IH]; intros e.
  - cbn. split_and!; [done | lia | done].
  - rewrite run_cons. destruct (IH (invoke cb e)) as (Hname & Hlen & Hlog).
    rewrite Hname, Hlen. split_and!.
    + by destruct cb.
    + destruct cb; cbn; rewrite length_app; cbn; lia.
    + intros Heq. apply Hlog. destruct cb; cbn; by rewrite Heq.
Qed.

(** X17: however the framework interleaves the three callbacks, each
    counter of the plugin grows by exactly the number of callbacks of its
    kind, and every callback prints one line and logs the same line.
    Starting from a new plugin the three counters therefore add up to the
    number of callbacks run, and the log agrees with the printed output. *)
Theorem plugin_counts_callbacks cbs e :
  agent_count (self (run cbs e)) = agent_count (self e) + occurrences AgentRun cbs
  ∧ llm_request_count (self (run cbs e))
    = llm_request_count (self e) + occurrences ModelRequest cbs
  ∧ tool_count (self (run cbs e)) = tool_count (self e) + occurrences ToolRequest cbs
  ∧ length (shown (run cbs e)) = (length (shown e) + length cbs)%nat
  ∧ agent_count (self (run cbs fresh)) + llm_request_count (self (run cbs fresh))
      + tool_count (self (run cbs fresh)) = Z.of_nat (length cbs)
  ∧ logged (run cbs fresh) = shown (run cbs fresh).
Proof.
  pose proof (run_counter AgentRun cbs) as Hagent.
  pose proof (run_counter ModelRequest cbs) as Hmodel.
  pose proof (run_counter ToolRequest cbs) as Htool.
  cbn [counter] in *.
  split_and!; try done.
  - apply run_lines.
  - rewrite Hagent, Hmodel, Htool. cbn. pose proof (occurrences_total cbs). lia.
  - by apply run_lines.
Qed.

(** X18: the line a callback prints shows the count including that call:
    after any callbacks on a new plugin, the next callback prints its label
    followed by one more than the number of earlier callbacks of the same
    kind; so the first line of each kind shows 1. *)
Theorem plugin_line_shows_updated_count cbs cb :
  last (shown (run (cbs ++ [cb]) fresh))
  = Some (label cb +:+ str_of_int (occurrences cb cbs + 1)).
Proof.
  rewrite run_snoc.
  pose proof (run_counter cb cbs fresh) as Hcount.
  destruct cb; cbn [invoke before_agent_callback before_model_callback
                    before_tool_callback shown self agent_count tool_count
                    llm_request_count label counter] in *;
    rewrite last_snoc, Hcount; cbn [fresh self init agent_count tool_count
                                    llm_request_count]; by rewrite Z.add_0_l.
Qed.
End PluginCounts.

Example plugin_three_callbacks :
  CountInvocation.shown
    (CountInvocation.run
       [CountInvocation.AgentRun; CountInvocation.ModelRequest;
        CountInvocation.ToolRequest; CountInvocation.ModelRequest]
       CountInvocation.fresh)
  = [ "[Plugin] Agent run count: 1"; "[Plugin] LLM request count: 1";
      "[Plugin] tool request count: 1"; "[Plugin] LLM request count: 2" ].
Proof. vm_compute. reflexivity. Qed.

(** * The support-agent query *)

Section QueryProperties.
Import A2A.
Context {St : Type}.
Variable new_service : St.
Variable create_session : string → string → string → St → option exn * St.
Variable run_async : RunCall → St → (list Event * option exn) * St.
Variable is_final_response : Event → bool.
Implicit Types (w : World St) (event : Event) (events : list Event).

Lemma print_texts_lines (ps : list Part) w :
  print_texts ps w = (ok tt, printed w (text_line <$> ps)).
Proof.
  revert w. induction ps as [|part ps IH]; intros w.
  - cbn. by rewrite printed_nil.
  - cbn [print_texts fmap list_fmap]. unfold bind, print, ok. cbn beta iota.
    rewrite IH. unfold printed. cbn. by rewrite <- app_assoc.
Qed.

Lemma show_final_ok event w :
  ¬ partless is_final_response event →
  show_final is_final_response event w
  = (ok tt, printed w (if is_final_response event
                       then text_line <$> parts_of event else [])).
Proof.
  intros Hparts. unfold show_final, partless, parts_of in *.
  destruct (is_final_response event); cbn [andb]; [|by rewrite printed_nil].
  destruct (content event) as [c|]; cbn [truthy_obj]; [|by rewrite printed_nil].
  destruct (parts c) as [ps|] eqn:Hps.
  - unfold bind, lift. cbn [getattr rbind ok]. rewrite Hps. cbn [iterate ok from_option].
    apply print_texts_lines.
  - destruct Hparts. split; [done|]. by exists c.
Qed.


Lemma for_each_show_final_ok events w :
  (∀ event, event ∈ events → ¬ partless is_final_response event) →
  for_each (show_final is_final_response) events w
  = (ok tt, printed w (final_lines is_final_response events)).
Proof.
  revert w. induction events as [|event events IH]; intros w Hall.
  - cbn. by rewrite printed_nil.
  - cbn [for_each]. unfold bind. rewrite show_final_ok by (apply Hall; left).
    cbn beta iota. rewrite IH by (intros ? ?; apply Hall; by right).
    unfold final_lines. cbn [flat_map]. by rewrite printed_app.
Qed.


(** X19: when the session is created, the run ends normally and every
    final response with content has a part list, the query returns
    normally after one call of [run_async] on a new session service.  It
    prints the customer line, the response heading and a rule, then one
    line per part of every final response (the text as it is, an empty
    line for an empty text, "None" for a part without text), then the
    closing rule; events that are not final responses print nothing. *)
Theorem query_prints_final_responses user_query uuid_hex w st0 events st1 :
  create_session "support_app" "demo_user"
    ("demo_session_" +:+ String.substring 0 8 uuid_hex) new_service = (None, st0) →
  run_async (query_call user_query uuid_hex) st0 = ((events, None), st1) →
  (∀ event, event ∈ events → ¬ partless is_final_response event) →
  test_a2a_communication new_service create_session run_async is_final_response
    user_query uuid_hex w
  = (ok tt,
     {| runner := st1;
        calls := (calls w ++ [query_call user_query uuid_hex])%list;
        stdout := (stdout w ++ query_opening user_query
                     ++ final_lines is_final_response events
                     ++ [str_repeat "-" 60])%list |}).
Proof.
  intros Hsession Hrun Hparts.
  unfold test_a2a_communication, with_new_service.
  cbv [bind print call_create_session call_run_async reraise lift ret].
  cbn [calls runner stdout fst snd]. rewrite Hsession.
  cbn [ok raise calls runner stdout].
  fold (query_call user_query uuid_hex). rewrite Hrun. cbn [fst snd ok].
  rewrite for_each_show_final_ok by done.
  unfold printed, query_opening. cbn [runner calls stdout].
  rewrite <- !app_assoc. reflexivity.
Qed.

End QueryProperties.

Lemma sample_answer_has_parts (event : Event) :
  event ∈ A2A.sample_answer → ¬ A2A.partless A2A.sample_final event.
Proof.
  unfold A2A.sample_answer. intros Hin (_ & c & Hc & Hps).
  repeat (apply elem_of_cons in Hin as [-> | Hin]);
    [by simplify_eq/= .. | by apply elem_of_nil in Hin].
Qed.

Lemma query_prints_final_responses_witness :
  A2A.test_a2a_communication O sample_create_session A2A.answer_run_async
    A2A.sample_final "Is it in stock?" "0123abcd4567ef89" sample_world
  = (ok tt,
     {| runner := 1%nat;
        calls := [A2A.query_call "Is it in stock?" "0123abcd4567ef89"];
        stdout := (A2A.query_opening "Is it in stock?"
                     ++ ["In stock"; ""; "None"; str_repeat "-" 60])%list |}).
Proof.
  apply (query_prints_final_responses O sample_create_session A2A.answer_run_async
           A2A.sample_final "Is it in stock?" "0123abcd4567ef89" sample_world
           O A2A.sample_answer 1%nat);
    [reflexivity | reflexivity | exact sample_answer_has_parts].
Defined.

